(** * Excel multi-sheet viewer ([filter.py]): the filter engine and the
    session script, embedded in Rocq.

    The script is a Streamlit page: it is executed from top to bottom on
    every user interaction, with [st.session_state] surviving between
    executions.  The embedding has three layers:

    - values, cells, rows and data frames, with the pandas operations
      the script calls ([df[col]], [Series.isin], [~mask], [df[mask]],
      [dropna], [unique], [copy]);
    - the two loops of the filter engine ([unique_values], lines 123-132,
      and [filtered_df], lines 149-157) as functions on these data;
    - the whole script as a computation over a world made of the session
      state, the rendered page and the log of accesses to the uploaded
      file, in a small state-and-exception monad.

    Static layout (page configuration, title, separators, the expander
    and column containers, the instruction and sidebar texts) carries no
    data and is left out; every element whose content or presence
    depends on the data is rendered. *)

From Stdlib Require Import ZArith Lia Ascii String.
From stdpp Require Import base option list strings gmap sorting pretty.

(** ** Values and cells *)

(** A spreadsheet cell read by [pd.read_excel] holds a string, a number
    or nothing.  Numbers are modelled by integers; [None] stands for the
    missing value (NaN). *)
Inductive value : Type :=
  | VInt (z : Z)
  | VStr (s : string).

Definition cell : Type := option value.

#[global] Instance value_eq_dec : EqDecision value.
Proof. solve_decision. Defined.

Definition value_to_sum (v : value) : Z + string :=
  match v with VInt z => inl z | VStr s => inr s end.

Definition value_of_sum (x : Z + string) : value :=
  match x with inl z => VInt z | inr s => VStr s end.

#[global] Instance value_countable : Countable value.
Proof.
  apply (inj_countable' value_to_sum value_of_sum).
  by intros [].
Defined.

(** ** Exceptions *)

(** The exceptions that the modelled operations raise, with the text
    [str(e)] gives.  [ParseError] stands for whatever the spreadsheet
    reader raises on a file it cannot decode.  [StopException] and
    [RerunException] are Streamlit's control exceptions; they derive from
    [BaseException], so the script's [except Exception] does not catch
    them. *)
Inductive exn : Type :=
  | KeyError (k : string)
  | TypeError (msg : string)
  | ValueError (msg : string)
  | AttributeError (msg : string)
  | ParseError (msg : string)
  | StopException
  | RerunException.

#[global] Instance exn_eq_dec : EqDecision exn.
Proof. solve_decision. Defined.

Inductive result (A : Type) : Type :=
  | Ok (a : A)
  | Raise (e : exn).
Arguments Ok {A} a.
Arguments Raise {A} e.

(** ** Data frames *)

(** A row keeps the index label pandas gave it when the sheet was read;
    boolean indexing keeps labels, so a surviving row is the very row of
    the source. *)
Record Row : Type := mkRow { label : nat; cells : list cell }.

Record DataFrame : Type := mkDF { columns : list string; rows : list Row }.

#[global] Instance Row_eq_dec : EqDecision Row.
Proof. solve_decision. Defined.

#[global] Instance DataFrame_eq_dec : EqDecision DataFrame.
Proof. solve_decision. Defined.

(** Position of a column name in the header. *)
Definition column_pos (c : string) (cols : list string) : option nat :=
  fst <$> list_find (λ x, x = c) cols.

(** The cell of a row at a position; a row too short for the header has
    a missing value there. *)
Definition cell_at (i : nat) (r : Row) : cell :=
  default None (cells r !! i).

(** [df[c]]: the series of the values of column [c], one per row.
    Raises [KeyError] when the frame has no such column.  ([read_excel]
    renames repeated headers, so a name stands for one column.) *)
Definition getitem_col (df : DataFrame) (c : string) : result (list cell) :=
  match column_pos c (columns df) with
  | Some i => Ok (cell_at i <$> rows df)
  | None => Raise (KeyError c)
  end.

(** [x in values], for one cell of a series: a missing value is a member
    of no list of (non-missing) values. *)
Definition cell_isin (values : list value) (c : cell) : bool :=
  match c with
  | Some v => bool_decide (v ∈ values)
  | None => false
  end.

(** [series.isin(values)]: the boolean mask of membership. *)
Definition isin (series : list cell) (values : list value) : list bool :=
  cell_isin values <$> series.

(** [~mask]. *)
Definition invert (mask : list bool) : list bool := negb <$> mask.

(** Rows at the positions where the mask is [True], in their order. *)
Fixpoint select_rows (rs : list Row) (mask : list bool) : list Row :=
  match rs, mask with
  | r :: rs', b :: mask' =>
      if b then r :: select_rows rs' mask' else select_rows rs' mask'
  | _, _ => []
  end.

(** [df[mask]]: boolean indexing; the header is kept. *)
Definition getitem_mask (df : DataFrame) (mask : list bool) : DataFrame :=
  mkDF (columns df) (select_rows (rows df) mask).

(** [series.dropna()]. *)
Definition dropna (series : list cell) : list value := omap id series.

(** [series.unique()]: the distinct values, in order of first appearance. *)
Definition unique (vs : list value) : list value := remove_dups vs.

(** ** Ordering of values and [sorted] *)

(** Python orders numbers among themselves and strings among themselves
    (by code point, which the byte order of the encoded strings agrees
    with); [1 < 'a'] raises [TypeError].  [value_le] is that order on
    each kind; the mixed cases only complete it to a total relation, so
    that the merge sort below is defined: [sorted] never consults them. *)
Definition value_le (a b : value) : Prop :=
  match a, b with
  | VInt x, VInt y => (x ≤ y)%Z
  | VStr s, VStr t => String.le s t
  | VInt _, VStr _ => True
  | VStr _, VInt _ => False
  end.

#[global] Instance value_le_dec : RelDecision value_le.
Proof. intros [x|s] [y|t]; simpl; apply _. Defined.

Definition is_int (v : value) : bool :=
  match v with VInt _ => true | VStr _ => false end.

Definition is_str (v : value) : bool :=
  match v with VInt _ => false | VStr _ => true end.

(** A list can be sorted when no string has to be compared with a
    number. *)
Definition comparable (l : list value) : bool :=
  forallb is_int l || forallb is_str l.

(** [sorted(l)].  On a list of one kind the order is total, so the
    sorted list is the same for every sorting algorithm; a merge sort
    stands for Python's.  On a mixed list some string is compared with
    some number and [TypeError] is raised; its text names the two types
    in the order of the comparison that failed, here fixed to one. *)
Definition sorted (l : list value) : result (list value) :=
  if comparable l then Ok (merge_sort value_le l)
  else Raise (TypeError "'<' not supported between instances of 'str' and 'int'").

(** ** Strings *)

Fixpoint split_go (sep : Ascii.ascii) (cur : string) (s : string) : list string :=
  match s with
  | EmptyString => [String.rev cur]
  | String a s' =>
      if Ascii.eqb a sep then String.rev cur :: split_go sep EmptyString s'
      else split_go sep (String a cur) s'
  end.

(** [s.split(sep)] for a one-character separator. *)
Definition split (sep : Ascii.ascii) (s : string) : list string :=
  split_go sep EmptyString s.

Definition lower_ascii (a : Ascii.ascii) : Ascii.ascii :=
  let n := Ascii.nat_of_ascii a in
  if bool_decide (65 ≤ n ≤ 90)%nat then Ascii.ascii_of_nat (n + 32) else a.

(** [s.lower()], on the ASCII letters. *)
Fixpoint lower (s : string) : string :=
  match s with
  | EmptyString => EmptyString
  | String a s' => String (lower_ascii a) (lower s')
  end.

(** [sub in s]. *)
Definition contains (sub s : string) : bool :=
  bool_decide (is_Some (String.index 0 sub s)).

(** [s.startswith(p)]. *)
Definition startswith (s p : string) : bool := String.prefix p s.

Fixpoint group3 (digits : string) (k : nat) : string :=
  match digits with
  | EmptyString => EmptyString
  | String a digits' =>
      match k with
      | O => String (Ascii.ascii_of_nat 44) (String a (group3 digits' 2))
      | S k' => String a (group3 digits' k')
      end
  end.

(** The format [{n:,}]: decimal digits in groups of three. *)
Definition format_thousands (n : nat) : string :=
  String.rev (group3 (String.rev (pretty n)) 3).

(** ** Dictionaries *)

(** A Python [dict] with string keys: the entries in insertion order,
    each key once. *)
Definition dict (V : Type) : Type := list (string * V).

Fixpoint dict_get {V} (k : string) (d : dict V) : option V :=
  match d with
  | [] => None
  | (k', v) :: d' => if decide (k = k') then Some v else dict_get k d'
  end.

(** [d[k] = v]: a known key keeps its place, a new one goes last. *)
Fixpoint dict_set {V} (k : string) (v : V) (d : dict V) : dict V :=
  match d with
  | [] => [(k, v)]
  | (k', v') :: d' =>
      if decide (k = k') then (k, v) :: d' else (k', v') :: dict_set k v d'
  end.

Definition keys {V} (d : dict V) : list string := d.*1.

(** [d[k]], raising [KeyError]. *)
Definition getitem {V} (d : dict V) (k : string) : result V :=
  match dict_get k d with
  | Some v => Ok v
  | None => Raise (KeyError k)
  end.

(** ** The uploaded file and the spreadsheet reader *)

Inductive engine : Type := openpyxl | xlrd.

#[global] Instance engine_eq_dec : EqDecision engine.
Proof. solve_decision. Defined.

(** What the spreadsheet reader makes of the bytes of a file: the sheets
    in workbook order, or an error with its text. *)
Inductive parsed : Type :=
  | Workbook (sheets : dict DataFrame)
  | Unreadable (msg : string).

(** What the browser uploaded: name, size, and the outcome of reading
    the bytes with each engine. *)
Record UploadedFile : Type := mkFile {
  name : string;
  size : nat;
  parse : engine → parsed
}.

(** [pd.ExcelFile(f, engine=engine).sheet_names]. *)
Definition ExcelFile (f : UploadedFile) (eng : engine) : result (list string) :=
  match parse f eng with
  | Workbook sheets => Ok (keys sheets)
  | Unreadable msg => Raise (ParseError msg)
  end.

(** [pd.read_excel(f, sheet_name=sheet, engine=engine)]. *)
Definition read_excel (f : UploadedFile) (sheet : string) (eng : engine)
    : result DataFrame :=
  match parse f eng with
  | Workbook sheets =>
      match dict_get sheet sheets with
      | Some df => Ok df
      | None => Raise (ValueError ("Worksheet named '" +:+ sheet +:+ "' not found"))
      end
  | Unreadable msg => Raise (ParseError msg)
  end.

(** Accesses to the uploaded file, in the order they happen. *)
Inductive io_event : Type :=
  | io_seek0
  | io_ExcelFile (eng : engine)
  | io_read_excel (sheet : string) (eng : engine).

#[global] Instance io_event_eq_dec : EqDecision io_event.
Proof. solve_decision. Defined.

(** ** The rendered page *)

Inductive element : Type :=
  | st_error (body : string)
  | st_warning (body : string)
  | st_info (body : string)
  | st_success (body : string)
  | st_subheader (body : string)
  | st_caption (body : string)
  | st_write (body : string)
  | st_write_list (items : list string)
  | st_sheet_multiselect (options selected : list string)
  | st_radio (options : list string) (selected : string)
  | st_multiselect (label : string) (options selected : list value)
  | st_download_button (label : string) (data : DataFrame) (file_name : string)
  | st_dataframe (data : DataFrame)
  | st_exception (e : exn).

#[global] Instance element_eq_dec : EqDecision element.
Proof. solve_decision. Defined.

(** ** The world and the script monad *)

(** [session] is the entry [dataframes] of [st.session_state]: absent, or
    a dictionary from sheet name to frame.  It survives from one
    execution of the script to the next; [page] is what the current
    execution has rendered so far; [io] logs the accesses to the file. *)
Record World : Type := mkWorld {
  session : option (dict DataFrame);
  page : list element;
  io : list io_event
}.

Definition M (A : Type) : Type := World → result A * World.

Definition ret {A} (a : A) : M A := λ w, (Ok a, w).

Definition bind {A B} (m : M A) (k : A → M B) : M B :=
  λ w, match m w with
       | (Ok a, w') => k a w'
       | (Raise e, w') => (Raise e, w')
       end.

Notation "'let*' x ':=' m 'in' k" := (bind m (λ x, k))
  (at level 10, x name, m at level 100, k at level 200,
   format "'[v' 'let*'  x  ':='  m  'in' '/' k ']'").
Notation "m '>>' k" := (bind m (λ _, k))
  (at level 100, k at level 200, right associativity).

Definition raise {A} (e : exn) : M A := λ w, (Raise e, w).

(** A pure operation that may raise. *)
Definition lift {A} (r : result A) : M A := λ w, (r, w).

(** [except Exception] catches everything but the control exceptions. *)
Definition is_Exception (e : exn) : bool :=
  match e with
  | StopException | RerunException => false
  | _ => true
  end.

Definition try_except {A} (body : M A) (handler : exn → M A) : M A :=
  λ w, match body w with
       | (Raise e, w') =>
           if is_Exception e then handler e w' else (Raise e, w')
       | done => done
       end.

Definition render (e : element) : M unit :=
  λ w, (Ok (), mkWorld (session w) (page w ++ [e]) (io w)).

Definition log (ev : io_event) : M unit :=
  λ w, (Ok (), mkWorld (session w) (page w) (io w ++ [ev])).

(** ['dataframes' in st.session_state]. *)
Definition has_dataframes : M bool :=
  λ w, (Ok (bool_decide (is_Some (session w))), w).

(** [st.session_state.dataframes], read. *)
Definition get_dataframes : M (dict DataFrame) :=
  λ w, match session w with
       | Some d => (Ok d, w)
       | None => (Raise (AttributeError "st.session_state has no attribute 'dataframes'"), w)
       end.

(** [st.session_state.dataframes = d]. *)
Definition set_dataframes (d : dict DataFrame) : M unit :=
  λ w, (Ok (), mkWorld (Some d) (page w) (io w)).

(** [del st.session_state.dataframes]. *)
Definition del_dataframes : M unit :=
  λ w, (Ok (), mkWorld None (page w) (io w)).

(** [for x in xs: body(x)]. *)
Fixpoint for_each {A} (xs : list A) (body : A → M unit) : M unit :=
  match xs with
  | [] => ret ()
  | x :: xs' => body x >> for_each xs' body
  end.

(** A [for] loop that updates a local variable [s]. *)
Fixpoint for_fold {A S} (xs : list A) (s : S) (body : S → A → M S) : M S :=
  match xs with
  | [] => ret s
  | x :: xs' => let* s' := body s x in for_fold xs' s' body
  end.

(** ** Widgets *)

(** What the user did with the widgets when this execution was
    triggered.  [None] for a multiselect the user has not touched.  The
    uploader of line 12 is created with [type=['xlsx', 'xls']] and hands
    the script files of these extensions only ([supported] below). *)
Record Inputs : Type := mkInputs {
  uploaded_file : option UploadedFile;
  sheets_picked : option (list string);
  filter_mode_index : nat;
  values_picked : string → option (list value);
  reset_clicked : bool
}.

(** [st.multiselect(options=options, default=default)]: the untouched
    widget returns its default; otherwise what was picked, which the
    widget only lets be options. *)
Definition multiselect {A} `{EqDecision A} (options default : list A)
    (picked : option (list A)) : list A :=
  match picked with
  | None => default
  | Some l => filter (λ x, x ∈ options) l
  end.

(** [st.radio(options=options)]: the option chosen, the first one when
    untouched. *)
Definition radio (options : list string) (index : nat) : string :=
  default (default EmptyString (head options)) (options !! index).

(** ** The filter engine: applying the filters (lines 149-157) *)

(** [filters] is a Python [dict]: keys in insertion order, each once. *)
Definition Filters : Type := list (string * list value).

(** One iteration of the loop of line 150. *)
Definition filter_step (is_exclude_mode : bool) (filtered_df : DataFrame)
    (entry : string * list value) : result DataFrame :=
  let '(filter_col, selected_values) := entry in
  if bool_decide (selected_values ≠ [])
     && bool_decide (filter_col ∈ columns filtered_df)
  then
    match getitem_col filtered_df filter_col with
    | Ok series =>
        if is_exclude_mode
        then Ok (getitem_mask filtered_df (invert (isin series selected_values)))
        else Ok (getitem_mask filtered_df (isin series selected_values))
    | Raise e => Raise e
    end
  else Ok filtered_df.

(** The loop of lines 150-157, started on a copy of the sheet's frame. *)
Fixpoint filter_loop (is_exclude_mode : bool) (filters : Filters)
    (filtered_df : DataFrame) : result DataFrame :=
  match filters with
  | [] => Ok filtered_df
  | entry :: filters' =>
      match filter_step is_exclude_mode filtered_df entry with
      | Ok filtered_df' => filter_loop is_exclude_mode filters' filtered_df'
      | Raise e => Raise e
      end
  end.

Definition filtered_df (is_exclude_mode : bool) (filters : Filters)
    (df : DataFrame) : result DataFrame :=
  filter_loop is_exclude_mode filters df.

(** ** The filter engine: candidate values (lines 123-132) *)

(** The loop of lines 125-129 for one filter column: the set of the
    values found in that column over the selected sheets. *)
Definition unique_values (selected_sheets : list string) (filter_col : string)
    : M (gset value) :=
  for_fold selected_sheets (∅ : gset value) (λ unique_values sheet,
    let* dataframes := get_dataframes in
    let* df := lift (getitem dataframes sheet) in
    if bool_decide (filter_col ∈ columns df) then
      let* series := lift (getitem_col df filter_col) in
      ret (unique_values ∪ list_to_set (unique (dropna series)))
    else ret unique_values).

Definition filter_label (is_exclude_mode : bool) (filter_col : string) : string :=
  (if is_exclude_mode then "🚫 Exclude" else "✓ Include") +:+ " " +:+ filter_col.

(** One iteration of the loop of line 123: a column with candidate
    values gets a multiselect of them, sorted, and its entry in
    [filters]; a column without any gets neither.  [list(unique_values)]
    enumerates the set in an order of Python's choosing; [elements] is
    one such enumeration. *)
Definition offer_filter (picked : string → option (list value))
    (is_exclude_mode : bool) (selected_sheets : list string)
    (filters : Filters) (filter_col : string) : M Filters :=
  let* unique_values := unique_values selected_sheets filter_col in
  if bool_decide (unique_values ≠ ∅) then
    let* unique_values := lift (sorted (elements unique_values)) in
    let selected := multiselect unique_values [] (picked filter_col) in
    render (st_multiselect (filter_label is_exclude_mode filter_col)
              unique_values selected) >>
    ret (dict_set filter_col selected filters)
  else ret filters.

(** ** The script *)

Definition expected_sheets : list string :=
  [ "Region"; "Issuer"; "Merchant"; "Acquirer"; "Issuer-Merchant";
    "Issuer-Acquirer"; "Acquirer-Merchant"; "Issuer-Acquirer-Merchant" ].

Definition filter_columns : list string :=
  [ "Issuer region name"; "Issuer country"; "Product Category"; "Issuer";
    "Merchant"; "Acquirer" ].

Definition filter_mode_options : list string :=
  [ "Include (show only selected)"; "Exclude (hide selected)" ].

(** [str(e)]. *)
Definition str (e : exn) : string :=
  match e with
  | KeyError k => "'" +:+ k +:+ "'"
  | TypeError msg | ValueError msg | AttributeError msg | ParseError msg => msg
  | StopException | RerunException => EmptyString
  end.

Definition sheet_not_found (sheet : string) : string :=
  "Sheet '" +:+ sheet +:+ "' not found in the uploaded file.".

Definition no_valid_sheets : string :=
  "No valid sheets found in the uploaded file.".

Definition dquote : string := String (ascii_of_nat 34) EmptyString.

Definition zip_hint : string :=
  "
            **Possible solutions:**
            1. The file might be in an older Excel format (.xls). Try saving it as .xlsx in Excel:
               - Open the file in Excel
               - Go to File → Save As
               - Choose " +:+ dquote +:+ "Excel Workbook (.xlsx)" +:+ dquote +:+ " format
               - Save and try uploading again
            
            2. The file might be corrupted. Try:
               - Opening the file in Excel and saving it again
               - Creating a new file and copying the data
            
            3. The file might not be a real Excel file despite having the extension
            ".

Definition engine_hint : string :=
  "
            **Excel format issue:**
            - For .xls files (Excel 97-2003), install xlrd: `pip install xlrd`
            - For .xlsx files, openpyxl should be installed: `pip install openpyxl`
            ".

(** Lines 49-53: the loop over the expected sheets. *)
Definition load_sheet (f : UploadedFile) (eng : engine)
    (sheet_names : list string) (sheet : string) : M unit :=
  if bool_decide (sheet ∈ sheet_names) then
    log (io_read_excel sheet eng) >>
    let* df := lift (read_excel f sheet eng) in
    let* dataframes := get_dataframes in
    set_dataframes (dict_set sheet df dataframes)
  else render (st_warning (sheet_not_found sheet)).

(** Lines 46-53: the store is filled when the session has none. *)
Definition load_sheets (f : UploadedFile) (eng : engine)
    (sheet_names : list string) : M unit :=
  let* present := has_dataframes in
  if negb present then
    set_dataframes [] >>
    log io_seek0 >>
    for_each expected_sheets (load_sheet f eng sheet_names)
  else ret ().

(** Lines 76-79: the columns of each selected sheet. *)
Definition show_columns (sheet : string) : M unit :=
  render (st_write ("**" +:+ sheet +:+ ":**")) >>
  let* dataframes := get_dataframes in
  let* df := lift (getitem dataframes sheet) in
  render (st_write_list (columns df)).

(** Lines 106-108. *)
Definition all_columns (selected_sheets : list string) : M (gset string) :=
  for_fold selected_sheets (∅ : gset string) (λ all_columns sheet,
    let* dataframes := get_dataframes in
    let* df := lift (getitem dataframes sheet) in
    ret (all_columns ∪ list_to_set (columns df))).

(** Lines 145-184: one displayed sheet.  [copy] of a frame is the frame
    as a value; [to_csv] is the exporter's, the button is given the
    frame it serializes. *)
Definition display_sheet (is_exclude_mode : bool) (filters : Filters)
    (sheet_name : string) : M unit :=
  let* dataframes := get_dataframes in
  let* df := lift (getitem dataframes sheet_name) in
  let* filtered_df := lift (filtered_df is_exclude_mode filters df) in
  render (st_subheader ("📄 " +:+ sheet_name)) >>
  render (st_caption ("Showing " +:+ format_thousands (length (rows filtered_df))
                      +:+ " of " +:+ format_thousands (length (rows df))
                      +:+ " records")) >>
  render (st_download_button ("📥 Download " +:+ sheet_name) filtered_df
            (sheet_name +:+ "_filtered.csv")) >>
  render (st_dataframe filtered_df).

(** Lines 73-184: what is shown for a non-empty selection of sheets. *)
Definition show_selection (inp : Inputs) (selected_sheets : list string)
    : M unit :=
  for_each selected_sheets show_columns >>
  let filter_mode := radio filter_mode_options (filter_mode_index inp) in
  render (st_radio filter_mode_options filter_mode) >>
  let is_exclude_mode := startswith filter_mode "Exclude" in
  let* all_columns := all_columns selected_sheets in
  let available_filter_columns :=
    filter (λ col, col ∈ all_columns) filter_columns in
  (if bool_decide (available_filter_columns = []) then
     render (st_warning "⚠️ None of the expected filter columns were found in your data. Please check the column names in the expander above.") >>
     render (st_info ("Expected columns: " +:+ String.concat ", " filter_columns))
   else ret ()) >>
  let* filters :=
    for_fold filter_columns ([] : Filters)
      (offer_filter (values_picked inp) is_exclude_mode selected_sheets) in
  for_each selected_sheets (display_sheet is_exclude_mode filters).

(** Lines 55-188: what is shown once the store exists. *)
Definition show_store (inp : Inputs) : M unit :=
  let* dataframes := get_dataframes in
  if bool_decide (dataframes ≠ []) then
    render (st_success ("✅ Loaded " +:+ pretty (length dataframes)
                        +:+ " sheets successfully!")) >>
    let available_sheets := keys dataframes in
    let selected_sheets :=
      multiselect available_sheets (take 1 available_sheets) (sheets_picked inp) in
    render (st_sheet_multiselect available_sheets selected_sheets) >>
    if bool_decide (selected_sheets ≠ []) then show_selection inp selected_sheets
    else render (st_info "👆 Please select at least one sheet to display")
  else render (st_error no_valid_sheets).

(** Lines 17-25: the engine for the file's extension. *)
Definition file_extension (f : UploadedFile) : string :=
  lower (List.last (split "." (name f)) EmptyString).

Definition choose_engine (f : UploadedFile) : M engine :=
  if decide (file_extension f = "xlsx") then ret openpyxl
  else if decide (file_extension f = "xls") then ret xlrd
  else render (st_error ("Unsupported file format: ." +:+ file_extension f)) >>
       raise StopException.

(** Lines 16-188: the body of the [try]. *)
Definition on_upload (inp : Inputs) (f : UploadedFile) : M unit :=
  let* engine := choose_engine f in
  log io_seek0 >>
  log (io_ExcelFile engine) >>
  let* sheet_names := lift (ExcelFile f engine) in
  load_sheets f engine sheet_names >>
  show_store inp.

(** Lines 190-221: the [except Exception] handler. *)
Definition on_exception (f : UploadedFile) (e : exn) : M unit :=
  render (st_error ("Error reading Excel file: " +:+ str e)) >>
  let error_str := lower (str e) in
  (if contains "not a zip file" error_str || contains "badzipfile" error_str
   then render (st_warning zip_hint)
   else if contains "xlrd" error_str || contains "engine" error_str
   then render (st_warning engine_hint)
   else ret ()) >>
  render (st_info ("**File details:** Name: " +:+ name f +:+ ", Size: "
                   +:+ pretty (size f) +:+ " bytes")) >>
  render (st_exception e).

(** Lines 254-259: the reset button. *)
Definition sidebar (inp : Inputs) : M unit :=
  if reset_clicked inp then
    let* present := has_dataframes in
    (if present then del_dataframes else ret ()) >>
    raise RerunException
  else ret ().

(** One execution of the script, top to bottom. *)
Definition script (inp : Inputs) : M unit :=
  match uploaded_file inp with
  | Some f => try_except (on_upload inp f) (on_exception f)
  | None => render (st_info "👆 Please upload an Excel file to get started")
  end >>
  sidebar inp.

(** ** Executions and interactions *)

(** Every execution renders the page anew. *)
Definition fresh_page (w : World) : World := mkWorld (session w) [] (io w).

Definition execute (inp : Inputs) (w : World) : result unit * World :=
  script inp (fresh_page w).

(** The widgets as Streamlit presents them to the execution that
    [st.rerun()] starts: the same, with the button released. *)
Definition released (inp : Inputs) : Inputs :=
  mkInputs (uploaded_file inp) (sheets_picked inp) (filter_mode_index inp)
    (values_picked inp) false.

(** One user interaction: the script is executed, and once more when it
    asked for a rerun. *)
Definition interaction (inp : Inputs) (w : World) : World :=
  match execute inp w with
  | (Raise RerunException, w') => (execute (released inp) w').2
  | (_, w') => w'
  end.

(** A session: the interactions one after the other. *)
Definition interactions (inps : list Inputs) (w : World) : World :=
  foldl (λ w inp, interaction inp w) w inps.

(** The sheets read from the file, as logged. *)
Definition sheets_read (evs : list io_event) : list string :=
  omap (λ ev, match ev with io_read_excel sheet _ => Some sheet | _ => None end) evs.

(** ** Vocabulary of the statements *)

(** The value of a row in a column of the header. *)
Definition row_value (cols : list string) (c : string) (r : Row) : cell :=
  column_pos c cols ≫= λ i, cell_at i r.

(** The row has a value in column [c], and it is one of [V]. *)
Definition member (cols : list string) (c : string) (V : list value)
    (r : Row) : Prop :=
  ∃ v, row_value cols c r = Some v ∧ v ∈ V.

#[global] Instance member_dec cols c V r : Decision (member cols c V r).
Proof.
  unfold member. destruct (row_value cols c r) as [v|].
  - destruct (decide (v ∈ V)) as [Hv|Hv].
    + left. by exists v.
    + right. intros (v' & [= <-] & ?). done.
  - right. by intros (v' & [=] & ?).
Defined.

(** An entry of [filters] is active on a frame when values are selected
    for it and the frame has its column. *)
Definition active (cols : list string) (entry : string * list value) : Prop :=
  entry.2 ≠ [] ∧ entry.1 ∈ cols.

(** The predicate of one entry, in the global mode. *)
Definition passes (is_exclude_mode : bool) (cols : list string)
    (entry : string * list value) (r : Row) : Prop :=
  if is_exclude_mode then ¬ member cols entry.1 entry.2 r
  else member cols entry.1 entry.2 r.

#[global] Instance passes_dec mode cols entry r : Decision (passes mode cols entry r).
Proof. unfold passes. destruct mode; apply _. Defined.

(** The row satisfies the predicate of every active entry. *)
Definition survives (is_exclude_mode : bool) (cols : list string)
    (filters : Filters) (r : Row) : Prop :=
  Forall (λ entry, active cols entry → passes is_exclude_mode cols entry r) filters.

#[global] Instance survives_dec mode cols filters r :
  Decision (survives mode cols filters r).
Proof. unfold survives, active. apply _. Defined.

(** The rows of a frame that satisfy a predicate, under its header. *)
Definition keep_rows (P : Row → Prop) `{∀ r, Decision (P r)} (df : DataFrame)
    : DataFrame :=
  mkDF (columns df) (filter P (rows df)).


(** The engine the script picks for a file, if its extension is
    supported. *)
Definition engine_of (f : UploadedFile) : option engine :=
  if decide (file_extension f = "xlsx") then Some openpyxl
  else if decide (file_extension f = "xls") then Some xlrd
  else None.


(** The sheets among [sheets] that a workbook has, with their frames. *)
Definition found_among (workbook : dict DataFrame) (sheets : list string)
    : dict DataFrame :=
  omap (λ sheet, (sheet,.) <$> dict_get sheet workbook) sheets.

(** The expected sheets a workbook has, with their frames, in the order
    of [expected_sheets]. *)
Definition found_sheets (workbook : dict DataFrame) : dict DataFrame :=
  found_among workbook expected_sheets.

(** The expected sheets a workbook has. *)
Definition present_sheets (workbook : dict DataFrame) : list string :=
  filter (λ sheet, sheet ∈ keys workbook) expected_sheets.

(** The warnings for those it does not have. *)
Definition missing_warnings (workbook : dict DataFrame) (sheets : list string)
    : list element :=
  (λ sheet, st_warning (sheet_not_found sheet))
    <$> filter (λ sheet, sheet ∉ keys workbook) sheets.

(** The reads of those it has. *)
Definition reads_of (workbook : dict DataFrame) (eng : engine)
    (sheets : list string) : list io_event :=
  (λ sheet, io_read_excel sheet eng)
    <$> filter (λ sheet, sheet ∈ keys workbook) sheets.

(** The world right after the store has been filled from a workbook
    (line 53), for an execution started in [w]. *)
Definition loaded_world (workbook : dict DataFrame) (eng : engine) (w : World)
    : World :=
  mkWorld (Some (found_sheets workbook))
    (page w ++ missing_warnings workbook expected_sheets)
    (io w ++ [io_seek0; io_ExcelFile eng; io_seek0]
          ++ reads_of workbook eng expected_sheets).

(** [v] is a value found in column [c] of a selected sheet of the store
    that has this column. *)
Definition found_in (d : dict DataFrame) (selected_sheets : list string)
    (c : string) (v : value) : Prop :=
  ∃ sheet df r,
    sheet ∈ selected_sheets ∧ dict_get sheet d = Some df
    ∧ c ∈ columns df ∧ r ∈ rows df ∧ row_value (columns df) c r = Some v.

(** An element that is not the warning of a missing sheet. *)
Definition not_sheet_warning (e : element) : Prop :=
  ∀ sheet, e ≠ st_warning (sheet_not_found sheet).

(** [w'] comes from [w] by rendering only: the session and the log are
    the same, and the page has grown by elements that are not
    missing-sheet warnings. *)
Definition calm (w w' : World) : Prop :=
  session w' = session w
  ∧ io w' = io w
  ∧ ∃ els, page w' = page w ++ els ∧ Forall not_sheet_warning els.

(** A computation that only renders, and raises nothing but what
    [except Exception] catches. *)
Definition tame {A} (m : M A) : Prop :=
  ∀ w, calm w (m w).2 ∧ ∀ e, (m w).1 = Raise e → is_Exception e.

(** A pure result whose exception, if any, is caught. *)
Definition caught {A} (r : result A) : Prop :=
  ∀ e, r = Raise e → is_Exception e.

(** An execution whose upload, if any, has a supported extension (the
    uploader widget accepts no other). *)
Definition supported (inp : Inputs) : Prop :=
  match uploaded_file inp with
  | Some f => is_Some (engine_of f)
  | None => True
  end.

(** ** Example data *)

(** A sheet whose [Issuer country] column holds US, US, FR and a missing
    value. *)
Definition issuer_sheet : DataFrame :=
  mkDF ["Issuer"; "Issuer country"; "Amount"]
    [ mkRow 0 [Some (VStr "Alpha Bank"); Some (VStr "US"); Some (VInt 120)];
      mkRow 1 [Some (VStr "Beta Bank"); Some (VStr "US"); Some (VInt 75)];
      mkRow 2 [Some (VStr "Gamma Bank"); Some (VStr "FR"); Some (VInt 310)];
      mkRow 3 [Some (VStr "Delta Bank"); None; Some (VInt 42)] ].

(** A sheet whose [Issuer] column mixes a number and a name. *)
Definition mixed_sheet : DataFrame :=
  mkDF ["Issuer"; "Amount"]
    [ mkRow 0 [Some (VInt 1001); Some (VInt 5)];
      mkRow 1 [Some (VStr "Alpha Bank"); Some (VInt 7)] ].

(** A workbook with every expected sheet but [Acquirer]. *)
Definition example_workbook : dict DataFrame :=
  [ ("Region", issuer_sheet); ("Issuer", issuer_sheet);
    ("Merchant", issuer_sheet); ("Issuer-Merchant", issuer_sheet);
    ("Issuer-Acquirer", issuer_sheet); ("Acquirer-Merchant", issuer_sheet);
    ("Issuer-Acquirer-Merchant", issuer_sheet); ("Notes", mixed_sheet) ].

Definition example_file : UploadedFile :=
  mkFile "volumes.XLSX" 2048
    (λ eng, match eng with
            | openpyxl => Workbook example_workbook
            | xlrd => Unreadable "Excel xlsx file; not supported"
            end).

(** A workbook whose only expected sheet has the mixed column. *)
Definition mixed_file : UploadedFile :=
  mkFile "issuers.xlsx" 4096
    (λ eng, match eng with
            | openpyxl => Workbook [("Issuer", mixed_sheet)]
            | xlrd => Unreadable "Excel xlsx file; not supported"
            end).

Definition new_session : World := mkWorld None [] [].

(** The first execution after an upload: no widget touched yet. *)
Definition first_upload (f : UploadedFile) : Inputs :=
  mkInputs (Some f) None 0 (λ _, None) false.

(** Later: two sheets picked, exclude mode, [US] selected. *)
Definition exclude_us (f : UploadedFile) : Inputs :=
  mkInputs (Some f) (Some ["Merchant"; "Issuer"]) 1
    (λ c, if decide (c = "Issuer country") then Some [VStr "US"] else None)
    false.


(** An upload of the given name that the reader cannot decode. *)
Definition file_named (nm : string) : UploadedFile :=
  mkFile nm 512 (λ _, Unreadable "File is not a zip file").

(** The world after more elements have been rendered. *)
Definition rendered (w : World) (els : list element) : World :=
  mkWorld (session w) (page w ++ els) (io w).

(** What is shown for a sheet whose stored table is [T] and whose
    filtered table is [T']. *)
Definition sheet_view (sheet : string) (T T' : DataFrame) : list element :=
  [ st_subheader ("📄 " +:+ sheet);
    st_caption ("Showing " +:+ format_thousands (length (rows T'))
                +:+ " of " +:+ format_thousands (length (rows T))
                +:+ " records");
    st_download_button ("📥 Download " +:+ sheet) T' (sheet +:+ "_filtered.csv");
    st_dataframe T' ].

(** The values found are all numbers, or all strings. *)
Definition one_kind (P : value → Prop) : Prop :=
  (∀ v, P v → is_int v) ∨ (∀ v, P v → is_str v).

(** Every value selected in the entry was picked by the user in the
    widget of the column and is found in that column. *)
Definition picked_and_found (picked : string → option (list value))
    (d : dict DataFrame) (selected_sheets : list string)
    (entry : string * list value) : Prop :=
  ∀ v, v ∈ entry.2 →
    found_in d selected_sheets entry.1 v
    ∧ ∃ l, picked entry.1 = Some l ∧ v ∈ l.

(** The sheets shown for the widget state [inp] over a store. *)
Definition selection_of (inp : Inputs) (d : dict DataFrame) : list string :=
  multiselect (keys d) (take 1 (keys d)) (sheets_picked inp).

(** The mode chosen in the widget state [inp]. *)
Definition mode_of (inp : Inputs) : bool :=
  startswith (radio filter_mode_options (filter_mode_index inp)) "Exclude".

(** The warning of line 114. *)
Definition no_filter_columns : string :=
  "⚠️ None of the expected filter columns were found in your data. Please check the column names in the expander above.".

(** No selected sheet of the store has any of the filter columns. *)
Definition without_filter_columns (d : dict DataFrame)
    (selected_sheets : list string) : Prop :=
  ∀ c sheet df, c ∈ filter_columns → sheet ∈ selected_sheets →
    dict_get sheet d = Some df → c ∉ columns df.

Definition is_write (e : element) : Prop :=
  (∃ body, e = st_write body) ∨ (∃ items, e = st_write_list items).

Definition is_multiselect (e : element) : Prop :=
  ∃ label options selected, e = st_multiselect label options selected.

(** The success message of line 56. *)
Definition loaded_message (n : nat) : string :=
  "✅ Loaded " +:+ pretty n +:+ " sheets successfully!".

(** What [show_store] renders first over a non-empty store. *)
Definition store_header (inp : Inputs) (d : dict DataFrame) : list element :=
  [ st_success (loaded_message (length d));
    st_sheet_multiselect (keys d) (selection_of inp d) ].

(** The sheet is shown in full. *)
Definition full_view (d : dict DataFrame) (sheet : string)
    (view : list element) : Prop :=
  ∃ T, dict_get sheet d = Some T ∧ view = sheet_view sheet T T.



(** The accesses to the file of an execution that finds a store: the
    upload, if any, is opened with the engine of its extension (lines
    28-31 run whatever the session holds), and no sheet is read. *)
Definition opened (inp : Inputs) : list io_event :=
  match uploaded_file inp with
  | Some f =>
      match engine_of f with
      | Some eng => [io_seek0; io_ExcelFile eng]
      | None => []
      end
  | None => []
  end.

(** * Properties *)

(** ** Boolean indexing is a filter *)

Lemma filter_all {A} (P : A → Prop) `{!∀ x, Decision (P x)} (l : list A) :
  Forall P l → filter P l = l.
Proof.
  induction 1 as [|x l Hx _ IH]; [done|].
  by rewrite filter_cons_True, IH.
Qed.

Lemma select_rows_fmap (p : Row → bool) (rs : list Row) :
  select_rows rs (p <$> rs) = filter (λ r, p r) rs.
Proof.
  induction rs as [|r rs IH]; [done|].
  cbn [fmap list_fmap select_rows]. rewrite filter_cons, IH.
  by destruct (p r).
Qed.

Lemma select_rows_sublist (rs : list Row) (mask : list bool) :
  select_rows rs mask `sublist_of` rs.
Proof.
  revert mask. induction rs as [|r rs IH]; intros [|[] mask]; simpl;
    try apply sublist_nil_l; by constructor.
Qed.

Lemma select_rows_length (rs : list Row) (mask : list bool) :
  length mask = length rs →
  length (select_rows rs mask) + length (select_rows rs (invert mask))
  = length rs.
Proof.
  revert mask. induction rs as [|r rs IH]; intros [|b mask] Hlen;
    simplify_eq/=; [done|].
  specialize (IH mask Hlen).
  destruct b; simpl; lia.
Qed.

Lemma select_rows_partition (rs : list Row) (mask : list bool) :
  length mask = length rs →
  select_rows rs mask ++ select_rows rs (invert mask) ≡ₚ rs.
Proof.
  revert mask. induction rs as [|r rs IH]; intros [|b mask] Hlen;
    simplify_eq/=; [done|].
  specialize (IH mask Hlen).
  destruct b; simpl.
  - by f_equiv.
  - rewrite <-Permutation_middle. by f_equiv.
Qed.

Lemma column_pos_elem_of (c : string) (cols : list string) :
  c ∈ cols → is_Some (column_pos c cols).
Proof.
  intros Hc. unfold column_pos.
  destruct (list_find_elem_of (λ x, x = c) cols c Hc eq_refl) as [[i x] ->].
  by eexists.
Qed.

Lemma getitem_col_elem_of (df : DataFrame) (c : string) :
  c ∈ columns df →
  getitem_col df c = Ok (row_value (columns df) c <$> rows df).
Proof.
  intros [i Hi]%column_pos_elem_of. unfold getitem_col, row_value.
  by rewrite Hi.
Qed.

Lemma cell_isin_member (cols : list string) (c : string) (V : list value)
    (r : Row) :
  cell_isin V (row_value cols c r) ↔ member cols c V r.
Proof.
  unfold member, cell_isin. destruct (row_value cols c r) as [v|]; simpl.
  - rewrite bool_decide_spec. split; [by exists v|].
    by intros (v' & [= <-] & ?).
  - split; [done|]. by intros (v' & [=] & ?).
Qed.

(** ** One filter, then all of them *)

Lemma filter_step_spec (mode : bool) (df : DataFrame)
    (entry : string * list value) :
  filter_step mode df entry
  = Ok (keep_rows (λ r, active (columns df) entry →
                        passes mode (columns df) entry r) df).
Proof.
  destruct entry as [c V]. unfold filter_step, keep_rows, active. simpl.
  destruct (bool_decide (V ≠ [])) eqn:HV; simpl.
  2:{ apply bool_decide_eq_false in HV. destruct df as [cols rs]. simpl.
      do 2 f_equal. symmetry. apply filter_all.
      apply Forall_forall; intros r _ [? _]. done. }
  apply bool_decide_eq_true in HV.
  destruct (bool_decide (c ∈ columns df)) eqn:Hc; simpl.
  2:{ apply bool_decide_eq_false in Hc. destruct df as [cols rs]. simpl.
      do 2 f_equal. symmetry. apply filter_all.
      apply Forall_forall; intros r _ [_ ?]. done. }
  apply bool_decide_eq_true in Hc.
  rewrite (getitem_col_elem_of _ _ Hc).
  unfold getitem_mask, isin, invert, passes.
  destruct mode; simpl; do 2 f_equal; rewrite <-!list_fmap_compose;
    rewrite select_rows_fmap; apply list_filter_iff; intros r; simpl.
  - rewrite negb_True, cell_isin_member. naive_solver.
  - rewrite cell_isin_member. naive_solver.
Qed.

Lemma filter_loop_spec (mode : bool) (filters : Filters) (df : DataFrame) :
  filter_loop mode filters df
  = Ok (keep_rows (survives mode (columns df) filters) df).
Proof.
  revert df. induction filters as [|entry filters IH]; intros df; simpl.
  - destruct df as [cols rs]. unfold keep_rows; simpl. do 2 f_equal.
    symmetry. apply filter_all, Forall_forall. intros r _. constructor.
  - rewrite filter_step_spec, IH. unfold keep_rows; simpl. do 2 f_equal.
    rewrite list_filter_filter. apply list_filter_iff; intros r.
    unfold survives. rewrite Forall_cons. tauto.
Qed.

Lemma filtered_df_spec (mode : bool) (filters : Filters) (df : DataFrame) :
  filtered_df mode filters df
  = Ok (keep_rows (survives mode (columns df) filters) df).
Proof. apply filter_loop_spec. Qed.

Lemma survives_singleton (mode : bool) (cols : list string) (c : string)
    (V : list value) (r : Row) :
  c ∈ cols → V ≠ [] →
  survives mode cols [(c, V)] r ↔ passes mode cols (c, V) r.
Proof.
  intros Hc HV. unfold survives. rewrite Forall_singleton.
  unfold active; simpl. naive_solver.
Qed.

(** ** The claims on [filtered_df] *)

(** C1.  One filter column [C] of the table with a non-empty selection
    [V]: include mode keeps exactly the rows whose value in [C] is one of
    [V], exclude mode exactly the rows whose value is not; a row without
    a value in [C] is dropped by the first and kept by the second. *)
Theorem include_exclude_exact (T : DataFrame) (C : string) (V : list value) :
  C ∈ columns T → V ≠ [] →
  filtered_df false [(C, V)] T = Ok (keep_rows (member (columns T) C V) T)
  ∧ filtered_df true [(C, V)] T
    = Ok (keep_rows (λ r, ¬ member (columns T) C V r) T)
  ∧ (∀ r, r ∈ rows T → row_value (columns T) C r = None →
       (r ∉ rows (keep_rows (member (columns T) C V) T))
       ∧ r ∈ rows (keep_rows (λ r, ¬ member (columns T) C V r) T)).
Proof.
  intros HC HV. rewrite !filtered_df_spec. unfold keep_rows.
  split_and!.
  - do 2 f_equal. apply list_filter_iff; intros r.
    by rewrite survives_singleton.
  - do 2 f_equal. apply list_filter_iff; intros r.
    by rewrite survives_singleton.
  - intros r Hr Hnull. simpl. rewrite !list_elem_of_filter.
    assert (¬ member (columns T) C V r) as Hnot.
    { intros (v & Hv & _). congruence. }
    tauto.
Qed.

Lemma include_exclude_exact_witness :
  let cols := columns issuer_sheet in
  let V := [VStr "US"] in
  filtered_df false [("Issuer country", V)] issuer_sheet
  = Ok (keep_rows (member cols "Issuer country" V) issuer_sheet)
  ∧ filtered_df true [("Issuer country", V)] issuer_sheet
    = Ok (keep_rows (λ r, ¬ member cols "Issuer country" V r) issuer_sheet)
  ∧ (∀ r, r ∈ rows issuer_sheet → row_value cols "Issuer country" r = None →
       (r ∉ rows (keep_rows (member cols "Issuer country" V) issuer_sheet))
       ∧ r ∈ rows (keep_rows (λ r, ¬ member cols "Issuer country" V r)
                     issuer_sheet)).
Proof.
  apply (include_exclude_exact issuer_sheet "Issuer country" [VStr "US"]).
  - by apply (bool_decide_unpack _).
  - done.
Defined.


(** C2.  When every entry of the filter spec has an empty selection, the
    filtered table is the table, in include mode and in exclude mode. *)
Theorem empty_selection_identity (mode : bool) (S : Filters) (T : DataFrame) :
  Forall (λ entry, entry.2 = []) S →
  filtered_df mode S T = Ok T.
Proof.
  intros Hempty. rewrite filtered_df_spec. destruct T as [cols rs].
  unfold keep_rows; simpl. do 2 f_equal. apply filter_all, Forall_forall.
  intros r _. unfold survives. eapply Forall_impl; [exact Hempty|].
  intros entry Hnil [Hne _]. done.
Qed.

Lemma empty_selection_identity_witness :
  filtered_df true [("Issuer country", []); ("Issuer", [])] issuer_sheet
  = Ok issuer_sheet.
Proof.
  apply (empty_selection_identity true
           [("Issuer country", []); ("Issuer", [])] issuer_sheet).
  by repeat constructor.
Defined.


(** C4.  A row survives exactly when it satisfies the predicate of every
    active entry, and the order in which the entries are applied does
    not change the result. *)
Theorem filtering_conjunctive (mode : bool) (S : Filters) (T : DataFrame) :
  filtered_df mode S T = Ok (keep_rows (survives mode (columns T) S) T)
  ∧ ∀ S', S' ≡ₚ S → filtered_df mode S' T = filtered_df mode S T.
Proof.
  split; [apply filtered_df_spec|].
  intros S' HS. rewrite !filtered_df_spec. unfold keep_rows.
  do 2 f_equal. apply list_filter_iff; intros r.
  unfold survives. by rewrite HS.
Qed.

(** C5.  Filtering the filtered table again with the same spec gives the
    filtered table. *)
Theorem filtering_idempotent (mode : bool) (S : Filters) (T : DataFrame) :
  ∃ T', filtered_df mode S T = Ok T' ∧ filtered_df mode S T' = Ok T'.
Proof.
  eexists. split; [apply filtered_df_spec|].
  rewrite filtered_df_spec. unfold keep_rows; simpl. do 2 f_equal.
  rewrite list_filter_filter. apply list_filter_iff. tauto.
Qed.

(** C6.  The rows of the filtered table are a subsequence of the rows of
    the table: the survivors, in their original order. *)
Theorem filtering_stable (mode : bool) (S : Filters) (T : DataFrame) :
  ∃ T', filtered_df mode S T = Ok T'
        ∧ columns T' = columns T
        ∧ rows T' `sublist_of` rows T.
Proof.
  eexists. split; [apply filtered_df_spec|].
  split; [done|]. apply sublist_filter.
Qed.

(** C10.  For one filter column of the table and a non-empty selection,
    the include result and the exclude result split the rows of the
    table: one mask selects the first, its complement the second, so
    every row, null or not, is in exactly one and the counts add up. *)
Theorem include_exclude_partition (T : DataFrame) (C : string)
    (V : list value) :
  C ∈ columns T → V ≠ [] →
  ∃ (Ti Te : DataFrame) (mask : list bool),
    filtered_df false [(C, V)] T = Ok Ti
    ∧ filtered_df true [(C, V)] T = Ok Te
    ∧ length mask = length (rows T)
    ∧ rows Ti = select_rows (rows T) mask
    ∧ rows Te = select_rows (rows T) (invert mask)
    ∧ rows Ti ++ rows Te ≡ₚ rows T
    ∧ (length (rows Ti) + length (rows Te) = length (rows T))%nat.
Proof.
  intros HC HV.
  set (mask := isin (row_value (columns T) C <$> rows T) V).
  assert (length mask = length (rows T)) as Hlen.
  { unfold mask, isin. by rewrite !length_fmap. }
  exists (getitem_mask T mask), (getitem_mask T (invert mask)), mask.
  assert (∀ mode, filtered_df mode [(C, V)] T
                  = Ok (getitem_mask T (if mode then invert mask else mask)))
    as Hrun.
  { intros mode. unfold filtered_df, filter_loop, filter_step.
    rewrite (bool_decide_eq_true_2 _ HV), (bool_decide_eq_true_2 _ HC).
    simpl. rewrite (getitem_col_elem_of _ _ HC). by destruct mode. }
  split_and!; [apply (Hrun false)|apply (Hrun true)|done..| |].
  - by apply select_rows_partition.
  - by apply select_rows_length.
Qed.

Lemma include_exclude_partition_witness :
  ∃ (Ti Te : DataFrame) (mask : list bool),
    filtered_df false [("Issuer country", [VStr "US"])] issuer_sheet = Ok Ti
    ∧ filtered_df true [("Issuer country", [VStr "US"])] issuer_sheet = Ok Te
    ∧ length mask = length (rows issuer_sheet)
    ∧ rows Ti = select_rows (rows issuer_sheet) mask
    ∧ rows Te = select_rows (rows issuer_sheet) (invert mask)
    ∧ rows Ti ++ rows Te ≡ₚ rows issuer_sheet
    ∧ (length (rows Ti) + length (rows Te) = length (rows issuer_sheet))%nat.
Proof.
  apply (include_exclude_partition issuer_sheet "Issuer country" [VStr "US"]).
  - by apply (bool_decide_unpack _).
  - done.
Defined.


(** ** Computations that only render *)

#[global] Instance calm_preorder : PreOrder calm.
Proof.
  split.
  - intros w. split_and!; [done..|]. exists []. by rewrite app_nil_r.
  - intros w1 w2 w3 (Hs1 & Hio1 & es1 & Hp1 & HP1) (Hs2 & Hio2 & es2 & Hp2 & HP2).
    split_and!; [congruence..|]. exists (es1 ++ es2).
    rewrite Hp2, Hp1, app_assoc. split; [done|]. by apply Forall_app.
Qed.

Lemma tame_ret {A} (a : A) : tame (ret a).
Proof. intros w. split; [reflexivity|]. by intros e [=]. Qed.

Lemma tame_lift {A} (r : result A) : caught r → tame (lift r).
Proof. intros Hr w. split; [reflexivity|]. intros e. apply Hr. Qed.

Lemma tame_bind {A B} (m : M A) (k : A → M B) :
  tame m → (∀ a, tame (k a)) → tame (bind m k).
Proof.
  intros Hm Hk w. unfold bind. destruct (Hm w) as [Hc He].
  destruct (m w) as [[a|e] w']; simpl in *.
  - destruct (Hk a w') as [Hc' He']. split; [by etrans|done].
  - split; [done|]. intros e' [= <-]. by apply He.
Qed.

Lemma tame_for_each {A} (xs : list A) (body : A → M unit) :
  (∀ x, tame (body x)) → tame (for_each xs body).
Proof.
  intros Hbody. induction xs as [|x xs IH]; simpl.
  - apply tame_ret.
  - apply tame_bind; [apply Hbody|]. by intros _.
Qed.

Lemma tame_for_fold {A S} (xs : list A) (s : S) (body : S → A → M S) :
  (∀ s x, tame (body s x)) → tame (for_fold xs s body).
Proof.
  intros Hbody. revert s. induction xs as [|x xs IH]; intros s; simpl.
  - apply tame_ret.
  - apply tame_bind; [apply Hbody|]. intros s'. apply IH.
Qed.

Lemma tame_render (e : element) : not_sheet_warning e → tame (render e).
Proof.
  intros He w. split; [|by intros e' [=]].
  split_and!; [done..|]. exists [e]. split; [done|]. by constructor.
Qed.

Lemma tame_get_dataframes : tame get_dataframes.
Proof.
  intros w. unfold get_dataframes. destruct (session w); simpl.
  - split; [reflexivity|]. by intros e [=].
  - split; [reflexivity|]. by intros e [= <-].
Qed.

Lemma caught_getitem {V} (d : dict V) (k : string) : caught (getitem d k).
Proof. intros e. unfold getitem. destruct (dict_get k d); by intros [= <-]. Qed.

Lemma caught_getitem_col (df : DataFrame) (c : string) :
  caught (getitem_col df c).
Proof.
  intros e. unfold getitem_col.
  destruct (column_pos c (columns df)); by intros [= <-].
Qed.

Lemma caught_sorted (l : list value) : caught (sorted l).
Proof. intros e. unfold sorted. destruct (comparable l); by intros [= <-]. Qed.

Lemma caught_filtered_df (mode : bool) (filters : Filters) (df : DataFrame) :
  caught (filtered_df mode filters df).
Proof. intros e. by rewrite filtered_df_spec. Qed.

Lemma not_sheet_warning_other (e : element) :
  (∀ body, e ≠ st_warning body) → not_sheet_warning e.
Proof. intros He sheet. apply He. Qed.

Create HintDb tame.

#[local] Hint Resolve tame_ret tame_lift tame_get_dataframes caught_getitem
  caught_getitem_col caught_sorted caught_filtered_df : tame.

Ltac tame_render :=
  apply tame_render; first
    [ apply not_sheet_warning_other; intros ?; discriminate
    | intros ?; unfold sheet_not_found; simpl; discriminate ].

Ltac tame_step :=
  first
    [ apply tame_ret
    | apply tame_get_dataframes
    | apply tame_lift; auto with tame
    | tame_render
    | apply tame_for_each; intros ?
    | apply tame_for_fold; intros ? ?
    | apply tame_bind; [|intros ?]
    | case_bool_decide
    | match goal with |- tame (if ?b then _ else _) => destruct b end ].

Lemma tame_unique_values (selected_sheets : list string) (filter_col : string) :
  tame (unique_values selected_sheets filter_col).
Proof. unfold unique_values. repeat tame_step. Qed.

Lemma tame_offer_filter picked mode selected_sheets filters filter_col :
  tame (offer_filter picked mode selected_sheets filters filter_col).
Proof.
  unfold offer_filter. apply tame_bind; [apply tame_unique_values|].
  intros uv. repeat tame_step.
Qed.

Lemma tame_display_sheet (mode : bool) (filters : Filters) (sheet : string) :
  tame (display_sheet mode filters sheet).
Proof. unfold display_sheet. repeat tame_step. Qed.

Lemma tame_show_selection (inp : Inputs) (selected_sheets : list string) :
  tame (show_selection inp selected_sheets).
Proof.
  unfold show_selection, show_columns, all_columns.
  repeat first [ apply tame_offer_filter | apply tame_display_sheet | tame_step ].
Qed.

Lemma tame_show_store (inp : Inputs) : tame (show_store inp).
Proof.
  unfold show_store.
  repeat first [ apply tame_show_selection | tame_step ].
Qed.

Lemma tame_on_exception (f : UploadedFile) (e : exn) : tame (on_exception f e).
Proof.
  unfold on_exception.
  repeat first [ tame_step
               | apply tame_render; intros ?; unfold sheet_not_found; simpl;
                 intros [= ?]; discriminate ].
Qed.

(** ** Dictionaries *)

Lemma dict_get_is_Some {V} (d : dict V) (k : string) :
  is_Some (dict_get k d) ↔ k ∈ keys d.
Proof.
  unfold keys. induction d as [|[k' v] d IH]; simpl.
  - rewrite elem_of_nil. split; [by intros [? [=]]|done].
  - rewrite elem_of_cons. case_decide as Hk.
    + split; [by left|by eexists].
    + rewrite IH. split; [by right|]. by intros [?|?].
Qed.

Lemma dict_get_None {V} (d : dict V) (k : string) :
  dict_get k d = None ↔ k ∉ keys d.
Proof. rewrite <-dict_get_is_Some, eq_None_not_Some. done. Qed.

Lemma dict_set_fresh {V} (k : string) (v : V) (d : dict V) :
  k ∉ keys d → dict_set k v d = d ++ [(k, v)].
Proof.
  unfold keys. induction d as [|[k' v'] d IH]; simpl; [done|].
  rewrite not_elem_of_cons. intros [Hne Hd].
  rewrite decide_False by done. by rewrite IH.
Qed.

(** ** Filling the store *)

Section Loading.
Context (f : UploadedFile) (eng : engine) (workbook : dict DataFrame).
Hypothesis Hparse : parse f eng = Workbook workbook.

Lemma ExcelFile_workbook : ExcelFile f eng = Ok (keys workbook).
Proof using Hparse. unfold ExcelFile. by rewrite Hparse. Qed.

Lemma load_sheet_present (sheet : string) (df : DataFrame)
    (d : dict DataFrame) (pg : list element) (evs : list io_event) :
  dict_get sheet workbook = Some df →
  sheet ∉ keys d →
  load_sheet f eng (keys workbook) sheet (mkWorld (Some d) pg evs)
  = (Ok (), mkWorld (Some (d ++ [(sheet, df)])) pg
              (evs ++ [io_read_excel sheet eng])).
Proof using Hparse.
  intros Hdf Hfresh. unfold load_sheet.
  rewrite bool_decide_eq_true_2
    by (apply dict_get_is_Some; by rewrite Hdf).
  unfold bind, log, lift, read_excel, get_dataframes, set_dataframes; simpl.
  rewrite Hparse, Hdf. simpl. by rewrite dict_set_fresh.
Qed.

Lemma load_sheet_missing (sheet : string) (w : World) :
  sheet ∉ keys workbook →
  load_sheet f eng (keys workbook) sheet w
  = (Ok (), mkWorld (session w)
              (page w ++ [st_warning (sheet_not_found sheet)]) (io w)).
Proof.
  intros Hmiss. unfold load_sheet. by rewrite bool_decide_eq_false_2.
Qed.

Lemma load_loop (sheets : list string) (d : dict DataFrame)
    (pg : list element) (evs : list io_event) :
  NoDup sheets →
  (∀ sheet, sheet ∈ sheets → sheet ∉ keys d) →
  for_each sheets (load_sheet f eng (keys workbook)) (mkWorld (Some d) pg evs)
  = (Ok (), mkWorld (Some (d ++ found_among workbook sheets))
              (pg ++ missing_warnings workbook sheets)
              (evs ++ reads_of workbook eng sheets)).
Proof using Hparse.
  intros Hnodup. revert d pg evs.
  induction Hnodup as [|sheet sheets Hnotin _ IH]; intros d pg evs Hfresh.
  { simpl. unfold ret, found_among, missing_warnings, reads_of. simpl.
    by rewrite !app_nil_r. }
  cbn [for_each]. unfold bind at 1.
  unfold found_among, missing_warnings, reads_of in *.
  destruct (dict_get sheet workbook) as [df|] eqn:Hdf.
  - rewrite (load_sheet_present sheet df) by (done || apply Hfresh; left).
    rewrite IH.
    2:{ intros s Hs. unfold keys. rewrite fmap_app, elem_of_app.
        intros [Hin|Hin%list_elem_of_singleton].
        - apply (Hfresh s); [by right|done].
        - simpl in Hin. congruence. }
    assert (sheet ∈ keys workbook) as Hin
      by (apply dict_get_is_Some; by rewrite Hdf).
    cbn [omap list_omap]. rewrite Hdf. simpl.
    rewrite filter_cons_False by (intros Hn; by apply Hn).
    rewrite filter_cons_True by done.
    cbn [fmap list_fmap]. by rewrite <-!app_assoc.
  - assert (sheet ∉ keys workbook) as Hmiss by by apply dict_get_None.
    rewrite load_sheet_missing by done. cbn [session page io].
    rewrite IH by (intros s Hs; apply Hfresh; by right).
    cbn [omap list_omap]. rewrite Hdf. simpl.
    rewrite filter_cons_True by done.
    rewrite filter_cons_False by done.
    cbn [fmap list_fmap]. by rewrite <-!app_assoc.
Qed.
End Loading.

Lemma load_sheets_present (f : UploadedFile) (eng : engine)
    (sheet_names : list string) (w : World) :
  is_Some (session w) → load_sheets f eng sheet_names w = (Ok (), w).
Proof.
  intros Hsome. unfold load_sheets, bind, has_dataframes.
  by rewrite bool_decide_eq_true_2.
Qed.

Lemma expected_sheets_NoDup : NoDup expected_sheets.
Proof. apply (bool_decide_unpack _). by vm_compute. Qed.

Lemma choose_engine_supported (f : UploadedFile) (eng : engine) (w : World) :
  engine_of f = Some eng → choose_engine f w = (Ok eng, w).
Proof.
  unfold engine_of, choose_engine. intros Heng.
  repeat case_decide; by simplify_eq.
Qed.

Lemma choose_engine_unsupported (f : UploadedFile) (w : World) :
  engine_of f = None →
  choose_engine f w
  = (Raise StopException,
     mkWorld (session w)
       (page w ++ [st_error ("Unsupported file format: ." +:+ file_extension f)])
       (io w)).
Proof.
  unfold engine_of, choose_engine. intros Heng.
  repeat case_decide; by simplify_eq.
Qed.

(** An execution that finds no store fills it, then shows it. *)
Lemma on_upload_fresh (inp : Inputs) (f : UploadedFile) (eng : engine)
    (workbook : dict DataFrame) (w : World) :
  engine_of f = Some eng →
  parse f eng = Workbook workbook →
  session w = None →
  on_upload inp f w = show_store inp (loaded_world workbook eng w).
Proof.
  intros Heng Hparse Hnone. unfold on_upload.
  unfold bind at 1. rewrite (choose_engine_supported _ _ _ Heng).
  unfold bind at 1, log at 1. unfold bind at 1, log at 1.
  unfold bind at 1, lift at 1. rewrite (ExcelFile_workbook _ _ _ Hparse).
  unfold bind at 1. unfold load_sheets.
  unfold bind at 1, has_dataframes at 1. cbn [session page io].
  rewrite Hnone, bool_decide_eq_false_2 by (by intros [? [=]]).
  cbn [negb]. unfold bind at 1, set_dataframes at 1.
  unfold bind at 1, log at 1. cbn [session page io].
  rewrite (load_loop f eng workbook Hparse)
    by (apply expected_sheets_NoDup || (intros ? _; apply not_elem_of_nil)).
  unfold loaded_world, found_sheets. cbn [app]. by rewrite <-!app_assoc.
Qed.

(** An execution that finds a store leaves it, and reads no sheet. *)
Lemma on_upload_present (inp : Inputs) (f : UploadedFile) (w : World) :
  is_Some (session w) →
  session (on_upload inp f w).2 = session w
  ∧ sheets_read (io (on_upload inp f w).2) = sheets_read (io w)
  ∧ ∀ e, (on_upload inp f w).1 = Raise e → e ≠ RerunException.
Proof.
  intros Hsome. unfold on_upload, bind.
  destruct (engine_of f) as [eng|] eqn:Heng.
  2:{ rewrite (choose_engine_unsupported _ _ Heng). cbn [fst snd session io].
      split_and!; [done..|]. by intros e [= <-]. }
  rewrite (choose_engine_supported _ _ _ Heng).
  unfold log, lift, ExcelFile. cbn [session page io].
  destruct (parse f eng) as [workbook|msg].
  2:{ cbn [fst snd session io]. unfold sheets_read. rewrite !omap_app. simpl.
      rewrite !app_nil_r. split_and!; [done..|]. by intros e [= <-]. }
  rewrite load_sheets_present by done.
  destruct (tame_show_store inp
              (mkWorld (session w) (page w) ((io w ++ [io_seek0])
                                             ++ [io_ExcelFile eng])))
    as [(Hs & Hio & _) He].
  cbn [session io] in *. rewrite Hs, Hio. split_and!; [done| |].
  - unfold sheets_read. rewrite !omap_app. simpl. by rewrite !app_nil_r.
  - intros e Hr ->. by apply He in Hr.
Qed.

(** ** The handler and the button *)

Lemma on_exception_ok (f : UploadedFile) (e : exn) (w : World) :
  (on_exception f e w).1 = Ok ().
Proof.
  unfold on_exception, bind, render.
  repeat match goal with |- context [if ?b then _ else _] => destruct b end;
    done.
Qed.

Lemma tame_try_except {A} (body : M A) (handler : exn → M A) :
  tame body → (∀ e, tame (handler e)) → tame (try_except body handler).
Proof.
  intros Hbody Hhandler w. unfold try_except.
  destruct (Hbody w) as [Hc He]. destruct (body w) as [[a|e] w']; simpl in *.
  - split; [done|]. by intros e [=].
  - pose proof (He e eq_refl) as Hexc.
    destruct (is_Exception e); [|done].
    destruct (Hhandler e w') as [Hc' He']. split; [by etrans|done].
Qed.

Lemma try_except_ok (body : M unit) (f : UploadedFile) (w : World) :
  (∀ e, (body w).1 = Raise e → is_Exception e) →
  (try_except body (on_exception f) w).1 = Ok ().
Proof.
  intros He. unfold try_except.
  destruct (body w) as [[[]|e] w'] eqn:Hbody; simpl in *; [done|].
  pose proof (He e eq_refl) as Hexc.
  destruct (is_Exception e); [|done]. apply on_exception_ok.
Qed.

Lemma sidebar_idle (inp : Inputs) (w : World) :
  reset_clicked inp = false → sidebar inp w = (Ok (), w).
Proof. intros Hreset. unfold sidebar. by rewrite Hreset. Qed.

Lemma sidebar_reset (inp : Inputs) (w : World) :
  reset_clicked inp = true →
  sidebar inp w = (Raise RerunException, mkWorld None (page w) (io w)).
Proof.
  intros Hreset. unfold sidebar, bind, has_dataframes, del_dataframes, raise.
  rewrite Hreset. by destruct w as [[d|] pg evs].
Qed.

(** ** One execution *)

Lemma try_on_upload_fresh (inp : Inputs) (f : UploadedFile) (eng : engine)
    (workbook : dict DataFrame) (w : World) :
  engine_of f = Some eng →
  parse f eng = Workbook workbook →
  session w = None →
  try_except (on_upload inp f) (on_exception f) w
  = try_except (show_store inp) (on_exception f) (loaded_world workbook eng w).
Proof.
  intros Heng Hparse Hnone. unfold try_except.
  by rewrite (on_upload_fresh inp f eng workbook w).
Qed.

Lemma show_store_empty (inp : Inputs) (w : World) :
  session w = Some [] →
  show_store inp w
  = (Ok (), mkWorld (session w) (page w ++ [st_error no_valid_sheets]) (io w)).
Proof.
  intros Hs. unfold show_store, bind, get_dataframes. rewrite Hs.
  rewrite bool_decide_eq_false_2 by (intros Hne; by apply Hne).
  unfold render. by rewrite Hs.
Qed.

(** From an absent store and a readable workbook: the store is filled,
    the page starts with the warnings of the missing sheets, everything
    after that only renders, and the button is reached. *)
Lemma execute_fresh (inp : Inputs) (f : UploadedFile) (eng : engine)
    (workbook : dict DataFrame) (w : World) :
  uploaded_file inp = Some f →
  engine_of f = Some eng →
  parse f eng = Workbook workbook →
  session w = None →
  ∃ w', calm (loaded_world workbook eng (fresh_page w)) w'
        ∧ (found_sheets workbook = [] →
           page w' = missing_warnings workbook expected_sheets
                     ++ [st_error no_valid_sheets])
        ∧ execute inp w = sidebar inp w'.
Proof.
  intros Hup Heng Hparse Hnone. unfold execute, script. rewrite Hup.
  unfold bind. rewrite (try_on_upload_fresh inp f eng workbook) by done.
  set (w1 := loaded_world workbook eng (fresh_page w)).
  pose proof (tame_try_except _ _ (tame_show_store inp)
                (tame_on_exception f) w1) as [Hcalm _].
  pose proof (try_except_ok (show_store inp) f w1
                (proj2 (tame_show_store inp w1))) as Hok.
  destruct (try_except (show_store inp) (on_exception f) w1) as [r w'] eqn:Hrun.
  simpl in Hcalm, Hok. subst r. exists w'. split_and!; [done| |done].
  intros Hnil. unfold try_except in Hrun.
  rewrite show_store_empty in Hrun by (subst w1; simpl; by rewrite Hnil).
  by simplify_eq.
Qed.

(** With a store and the button untouched, an execution leaves the store
    alone, reads no sheet and asks for no rerun. *)
Lemma execute_settled (inp : Inputs) (w : World) :
  is_Some (session w) →
  reset_clicked inp = false →
  session (execute inp w).2 = session w
  ∧ sheets_read (io (execute inp w).2) = sheets_read (io w)
  ∧ (execute inp w).1 ≠ Raise RerunException.
Proof.
  intros Hsome Hreset. unfold execute, script, bind.
  destruct (uploaded_file inp) as [f|].
  2:{ unfold render. rewrite sidebar_idle by done. done. }
  unfold try_except.
  destruct (on_upload_present inp f (fresh_page w) Hsome) as (Hs & Hio & Hr).
  destruct (on_upload inp f (fresh_page w)) as [[[]|e] w1]; simpl in *.
  - by rewrite sidebar_idle.
  - destruct (is_Exception e) eqn:He.
    + destruct (tame_on_exception f e w1) as [(Hs' & Hio' & _) _].
      pose proof (on_exception_ok f e w1) as Hok.
      destruct (on_exception f e w1) as [r w2]; simpl in *. subst r.
      rewrite sidebar_idle by done. simpl.
      split_and!; [congruence|congruence|done].
    + split_and!; [done..|]. intros [= ->]. by apply (Hr RerunException).
Qed.

Lemma interaction_settled (inp : Inputs) (w : World) :
  is_Some (session w) →
  reset_clicked inp = false →
  session (interaction inp w) = session w
  ∧ sheets_read (io (interaction inp w)) = sheets_read (io w).
Proof.
  intros Hsome Hreset.
  destruct (execute_settled inp w Hsome Hreset) as (Hs & Hio & Hr).
  unfold interaction. destruct (execute inp w) as [[[]|e] w']; simpl in *;
    [done|]. destruct e; try done.
Qed.

(** ** One interaction on a session without a store *)

Lemma interaction_fresh (inp : Inputs) (f : UploadedFile) (eng : engine)
    (workbook : dict DataFrame) (w : World) :
  uploaded_file inp = Some f →
  engine_of f = Some eng →
  parse f eng = Workbook workbook →
  session w = None →
  ∃ w0, session w0 = None
        ∧ sheets_read (io w0) `prefix_of` sheets_read (io (interaction inp w))
        ∧ (reset_clicked inp = false → w0 = w)
        ∧ calm (loaded_world workbook eng (fresh_page w0)) (interaction inp w)
        ∧ (found_sheets workbook = [] →
           page (interaction inp w)
           = missing_warnings workbook expected_sheets
             ++ [st_error no_valid_sheets]).
Proof.
  intros Hup Heng Hparse Hnone.
  destruct (execute_fresh inp f eng workbook w) as (w1 & Hcalm & Hnil & Hrun);
    [done..|].
  unfold interaction. rewrite Hrun.
  destruct (reset_clicked inp) eqn:Hreset.
  - rewrite sidebar_reset by done.
    set (w0 := mkWorld None (page w1) (io w1)).
    destruct (execute_fresh (released inp) f eng workbook w0)
      as (w2 & Hcalm2 & Hnil2 & Hrun2); [done..|].
    rewrite Hrun2, sidebar_idle by done. simpl.
    exists w0. split_and!; [done| |done|done|done].
    destruct Hcalm2 as (_ & Hio2 & _). rewrite Hio2. simpl.
    unfold sheets_read. rewrite omap_app. by apply prefix_app_r.
  - rewrite sidebar_idle by done.
    exists w. split_and!; [done| |done|done|done].
    destruct Hcalm as (_ & Hio & _). rewrite Hio. simpl.
    unfold sheets_read. rewrite omap_app. by apply prefix_app_r.
Qed.

(** ** Counting the warnings *)

Lemma string_length_app (s t : string) :
  String.length (s +:+ t) = (String.length s + String.length t)%nat.
Proof. induction s as [|a s IH]; simpl; [done|]. by rewrite IH. Qed.

Lemma string_app_inj_r (t s s' : string) : s +:+ t = s' +:+ t → s = s'.
Proof.
  revert s'. induction s as [|a s IH]; intros [|a' s'] Heq.
  - done.
  - change (t = String a' (s' +:+ t)) in Heq.
    apply (f_equal String.length) in Heq. simpl in Heq.
    rewrite (string_length_app s' t) in Heq. lia.
  - change (String a (s +:+ t) = t) in Heq.
    apply (f_equal String.length) in Heq. simpl in Heq.
    rewrite (string_length_app s t) in Heq. lia.
  - change (String a (s +:+ t) = String a' (s' +:+ t)) in Heq.
    injection Heq as -> Heq. f_equal. by apply IH.
Qed.

#[global] Instance sheet_not_found_inj : Inj (=) (=) sheet_not_found.
Proof.
  intros s s' Heq. unfold sheet_not_found in Heq.
  apply (inj (String.app _)) in Heq. by apply string_app_inj_r in Heq.
Qed.






Lemma keys_found_among (workbook : dict DataFrame) (sheets : list string) :
  keys (found_among workbook sheets)
  = filter (λ sheet, sheet ∈ keys workbook) sheets.
Proof.
  unfold found_among. induction sheets as [|s sheets IH]; [done|].
  cbn [omap list_omap]. rewrite filter_cons.
  destruct (dict_get s workbook) as [df|] eqn:Hdf; simpl.
  - rewrite decide_True by (apply dict_get_is_Some; by rewrite Hdf).
    change (keys ((s, df) :: ?l)) with (s :: keys l). by rewrite IH.
  - rewrite decide_False by (by apply dict_get_None). done.
Qed.

Lemma sheets_read_reads_of (workbook : dict DataFrame) (eng : engine)
    (sheets : list string) :
  sheets_read (reads_of workbook eng sheets)
  = filter (λ sheet, sheet ∈ keys workbook) sheets.
Proof.
  unfold sheets_read, reads_of.
  generalize (filter (λ sheet, sheet ∈ keys workbook) sheets). intros l.
  induction l as [|s l IH]; [done|].
  cbn [fmap list_fmap omap list_omap]. by f_equal.
Qed.

Lemma sheets_read_loaded_world (workbook : dict DataFrame) (eng : engine)
    (w : World) :
  sheets_read (io (loaded_world workbook eng w))
  = sheets_read (io w) ++ present_sheets workbook.
Proof.
  unfold loaded_world, present_sheets. cbn [io]. unfold sheets_read.
  rewrite !omap_app. cbn [omap list_omap app].
  by rewrite <-(sheets_read_reads_of workbook eng).
Qed.

(** ** The claims on the session *)



Lemma on_upload_present_caught (inp : Inputs) (f : UploadedFile) (w : World) :
  is_Some (session w) →
  is_Some (engine_of f) →
  ∀ e, (on_upload inp f w).1 = Raise e → is_Exception e.
Proof.
  intros Hsome [eng Heng]. unfold on_upload, bind.
  rewrite (choose_engine_supported _ _ _ Heng).
  unfold log, lift, ExcelFile. cbn [session page io].
  destruct (parse f eng) as [workbook|msg]; [|by intros e [= <-]].
  rewrite load_sheets_present by done. apply tame_show_store.
Qed.

(** With the button clicked and a supported upload (or none), an
    execution over a store deletes it and asks for a rerun. *)
Lemma execute_reset (inp : Inputs) (w : World) :
  is_Some (session w) →
  reset_clicked inp = true →
  supported inp →
  ∃ w', execute inp w = (Raise RerunException, w') ∧ session w' = None.
Proof.
  intros Hsome Hreset Hsup. unfold execute, script, bind, supported in *.
  destruct (uploaded_file inp) as [f|].
  2:{ unfold render. rewrite sidebar_reset by done. by eexists. }
  pose proof (try_except_ok (on_upload inp f) f (fresh_page w)
                (on_upload_present_caught inp f (fresh_page w) Hsome Hsup))
    as Hok.
  destruct (try_except (on_upload inp f) (on_exception f) (fresh_page w))
    as [r w1]. simpl in Hok. subst r.
  rewrite sidebar_reset by done. by eexists.
Qed.

Lemma interactions_settled (inps : list Inputs) (w : World) :
  is_Some (session w) →
  Forall (λ inp, reset_clicked inp = false) inps →
  session (interactions inps w) = session w
  ∧ sheets_read (io (interactions inps w)) = sheets_read (io w).
Proof.
  intros Hsome Hinps. revert w Hsome.
  induction Hinps as [|inp inps Hreset _ IH]; intros w Hsome; [done|].
  destruct (interaction_settled inp w Hsome Hreset) as [Hs Hio].
  unfold interactions in *. cbn [foldl].
  destruct (IH (interaction inp w)) as [Hs' Hio']; [by rewrite Hs|].
  split; congruence.
Qed.

Lemma on_upload_present_io (inp : Inputs) (f : UploadedFile) (w : World) :
  is_Some (session w) →
  io (on_upload inp f w).2
  = io w ++ match engine_of f with
            | Some eng => [io_seek0; io_ExcelFile eng]
            | None => []
            end.
Proof.
  intros Hsome. unfold on_upload, bind.
  destruct (engine_of f) as [eng|] eqn:Heng.
  2:{ rewrite (choose_engine_unsupported _ _ Heng). cbn [snd io].
      by rewrite app_nil_r. }
  rewrite (choose_engine_supported _ _ _ Heng).
  unfold log, lift, ExcelFile. cbn [session page io].
  destruct (parse f eng) as [workbook|msg].
  2:{ cbn [snd io]. by rewrite <-app_assoc. }
  rewrite load_sheets_present by done.
  destruct (tame_show_store inp
              (mkWorld (session w) (page w) ((io w ++ [io_seek0])
                                             ++ [io_ExcelFile eng])))
    as [(_ & Hio & _) _].
  cbn [io] in Hio. rewrite Hio. by rewrite <-app_assoc.
Qed.

(** With a store and the button untouched, the file accesses of an
    interaction are exactly the opening of the upload. *)
Lemma interaction_settled_io (inp : Inputs) (w : World) :
  is_Some (session w) →
  reset_clicked inp = false →
  io (interaction inp w) = io w ++ opened inp.
Proof.
  intros Hsome Hreset.
  destruct (execute_settled inp w Hsome Hreset) as (_ & _ & Hr).
  assert (io (execute inp w).2 = io w ++ opened inp) as Hio.
  { unfold execute, script, bind, opened.
    destruct (uploaded_file inp) as [f|].
    2:{ unfold render. rewrite sidebar_idle by done. cbn [snd io].
        by rewrite app_nil_r. }
    unfold try_except.
    pose proof (on_upload_present_io inp f (fresh_page w) Hsome) as Hup.
    destruct (on_upload inp f (fresh_page w)) as [[[]|e] w1];
      cbn [fst snd fresh_page io] in *.
    - by rewrite sidebar_idle.
    - destruct (is_Exception e) eqn:He; [|done].
      destruct (tame_on_exception f e w1) as [(_ & Hio' & _) _].
      pose proof (on_exception_ok f e w1) as Hok.
      destruct (on_exception f e w1) as [r w2]; cbn [fst snd] in *. subst r.
      rewrite sidebar_idle by done. cbn [snd]. congruence. }
  unfold interaction. destruct (execute inp w) as [[[]|e] w']; cbn [fst snd] in *;
    [done|]. by destruct e.
Qed.

Lemma interactions_settled_io (inps : list Inputs) (w : World) :
  is_Some (session w) →
  Forall (λ inp, reset_clicked inp = false) inps →
  io (interactions inps w) = io w ++ concat (opened <$> inps).
Proof.
  intros Hsome Hinps. revert w Hsome.
  induction Hinps as [|inp inps Hreset _ IH]; intros w Hsome.
  { simpl. by rewrite app_nil_r. }
  destruct (interaction_settled inp w Hsome Hreset) as [Hs _].
  unfold interactions in *. cbn [foldl fmap list_fmap concat].
  rewrite IH by (by rewrite Hs).
  by rewrite (interaction_settled_io inp w Hsome Hreset), <-app_assoc.
Qed.

(** C8.  The store is filled once per store, not once per uploaded file.
    The first interaction of a session with a readable upload opens the
    workbook and reads each of its expected sheets exactly once into
    the store.  Every later interaction without reset, whatever it
    changes (selection, filters, mode, even the upload), opens the
    workbook then uploaded once more (lines 28-31 are outside the guard
    of line 46) but reads no sheet and leaves the store as it is; an
    execution that ends without the store is one where the button was
    clicked, and clicking it does delete the store and rerun the
    script. *)
Theorem store_filled_once (f : UploadedFile) (eng : engine)
    (workbook : dict DataFrame) (inp0 : Inputs) (inps : list Inputs)
    (w : World) :
  engine_of f = Some eng →
  parse f eng = Workbook workbook →
  session w = None →
  uploaded_file inp0 = Some f →
  reset_clicked inp0 = false →
  Forall (λ inp, reset_clicked inp = false) inps →
  let w1 := interaction inp0 w in
  let wn := interactions inps w1 in
  session w1 = Some (found_sheets workbook)
  ∧ io w1 = io w ++ [io_seek0; io_ExcelFile eng; io_seek0]
                 ++ reads_of workbook eng expected_sheets
  ∧ sheets_read (io w1) = sheets_read (io w) ++ present_sheets workbook
  ∧ NoDup (present_sheets workbook)
  ∧ session wn = session w1
  ∧ io wn = io w1 ++ concat (opened <$> inps)
  ∧ sheets_read (io wn) = sheets_read (io w1)
  ∧ (∀ inp, session (execute inp wn).2 = None → reset_clicked inp = true)
  ∧ (∀ inp, reset_clicked inp = true → supported inp →
       ∃ w', execute inp wn = (Raise RerunException, w')
             ∧ session w' = None).
Proof.
  intros Heng Hparse Hnone Hup Hreset Hinps w1 wn.
  destruct (interaction_fresh inp0 f eng workbook w)
    as (w0 & _ & _ & Hw0 & (Hs & Hio & _) & _); [done..|].
  rewrite (Hw0 Hreset) in Hs, Hio. fold w1 in Hs, Hio.
  assert (is_Some (session w1)) as Hsome1 by (rewrite Hs; by eexists).
  destruct (interactions_settled inps w1 Hsome1 Hinps) as [Hsn Hion].
  fold wn in Hsn, Hion.
  assert (is_Some (session wn)) as Hsomen by by rewrite Hsn.
  split_and!; [done|done| | |done| |done| |].
  - rewrite Hio. by rewrite sheets_read_loaded_world.
  - apply NoDup_filter, expected_sheets_NoDup.
  - by apply interactions_settled_io.
  - intros inp Hgone. destruct (reset_clicked inp) eqn:Hr; [done|].
    destruct (execute_settled inp wn Hsomen Hr) as [Hkeep _].
    rewrite <-Hkeep, Hgone in Hsomen. by destruct Hsomen.
  - intros inp Hr Hsup. by apply execute_reset.
Qed.

Lemma store_filled_once_witness :
  let w1 := interaction (first_upload example_file) new_session in
  let wn := interactions [exclude_us example_file; first_upload mixed_file] w1 in
  session w1 = Some (found_sheets example_workbook)
  ∧ io w1
    = [io_seek0; io_ExcelFile openpyxl; io_seek0]
      ++ reads_of example_workbook openpyxl expected_sheets
  ∧ sheets_read (io w1)
    = [ "Region"; "Issuer"; "Merchant"; "Issuer-Merchant"; "Issuer-Acquirer";
        "Acquirer-Merchant"; "Issuer-Acquirer-Merchant" ]
  ∧ session wn = session w1
  ∧ io wn = io w1 ++ [io_seek0; io_ExcelFile openpyxl;
                      io_seek0; io_ExcelFile openpyxl]
  ∧ sheets_read (io wn) = sheets_read (io w1).
Proof.
  pose proof (store_filled_once example_file openpyxl example_workbook
                (first_upload example_file)
                [exclude_us example_file; first_upload mixed_file] new_session
                eq_refl eq_refl eq_refl eq_refl eq_refl)
    as Hrun.
  destruct Hrun as (Hs1 & Hio1 & Hread1 & _ & Hsn & Hion & Hreadn & _).
  { by repeat constructor. }
  by split_and!.
Defined.

(** The claim as worded fails twice on this session.  A change of the
    filters with the same file uploaded opens, and so parses, the
    workbook again.  And a second file uploaded in place of the first is
    opened too, yet none of its sheets is read, although it has the
    expected sheet [Issuer]: the store still holds the sheets of the
    first file, so it is not filled once per uploaded file. *)
Lemma store_not_per_upload :
  let w1 := interaction (first_upload example_file) new_session in
  let w2 := interaction (exclude_us example_file) w1 in
  let w3 := interaction (first_upload mixed_file) w2 in
  io w2 = io w1 ++ [io_seek0; io_ExcelFile openpyxl]
  ∧ io w2 ≠ io w1
  ∧ io w3 = io w2 ++ [io_seek0; io_ExcelFile openpyxl]
  ∧ present_sheets [("Issuer", mixed_sheet)] = ["Issuer"]
  ∧ sheets_read (io w3) = sheets_read (io w1)
  ∧ session w3 = Some (found_sheets example_workbook)
  ∧ session w3 ≠ Some (found_sheets [("Issuer", mixed_sheet)]).
Proof.
  vm_compute. split_and!; [done| |done..|]; intros [=].
Qed.

(** C9.  Showing a sheet computes its filtered view from the stored
    table and renders it; the store, and in it the table of that sheet,
    is what it was.  The same holds for a whole interaction in which the
    reset button is not clicked. *)
Theorem filtering_leaves_store (mode : bool) (filters : Filters)
    (sheet : string) (T : DataFrame) (d : dict DataFrame) (w : World) :
  session w = Some d →
  dict_get sheet d = Some T →
  ∃ T',
    filtered_df mode filters T = Ok T'
    ∧ (display_sheet mode filters sheet w).1 = Ok ()
    ∧ st_dataframe T' ∈ page (display_sheet mode filters sheet w).2
    ∧ session (display_sheet mode filters sheet w).2 = Some d
    ∧ (∀ inp, reset_clicked inp = false →
         session (interaction inp w) = Some d
         ∧ dict_get sheet d = Some T).
Proof.
  intros Hs Hd. eexists. split; [apply filtered_df_spec|].
  unfold display_sheet, bind, get_dataframes, lift, getitem, render.
  rewrite Hs, Hd, filtered_df_spec. cbn [fst snd session page].
  split_and!; [done| |done|].
  - rewrite !elem_of_app. right. by left.
  - intros inp Hreset. split; [|done].
    rewrite <-Hs. apply interaction_settled; [|done]. rewrite Hs. by eexists.
Qed.

Lemma filtering_leaves_store_witness :
  let w1 := interaction (first_upload example_file) new_session in
  ∃ T',
    filtered_df true [("Issuer country", [VStr "US"])] issuer_sheet = Ok T'
    ∧ (display_sheet true [("Issuer country", [VStr "US"])] "Issuer" w1).1
      = Ok ()
    ∧ st_dataframe T'
      ∈ page (display_sheet true [("Issuer country", [VStr "US"])] "Issuer" w1).2
    ∧ session (display_sheet true [("Issuer country", [VStr "US"])] "Issuer" w1).2
      = Some (found_sheets example_workbook)
    ∧ (∀ inp, reset_clicked inp = false →
         session (interaction inp w1) = Some (found_sheets example_workbook)
         ∧ dict_get "Issuer" (found_sheets example_workbook)
           = Some issuer_sheet).
Proof.
  intros w1.
  apply (filtering_leaves_store true [("Issuer country", [VStr "US"])]
           "Issuer" issuer_sheet (found_sheets example_workbook) w1).
  - by vm_compute.
  - by vm_compute.
Defined.

(** ** Candidate values *)

#[global] Instance value_le_po : PartialOrder value_le.
Proof.
  split; [split|].
  - intros [x|s]; simpl; [lia|reflexivity].
  - intros [x|s] [y|t] [z|u]; simpl; try done; [lia|apply transitivity].
  - intros [x|s] [y|t]; simpl; try done.
    + intros ??. f_equal. lia.
    + intros ??. f_equal. by apply (anti_symm String.le).
Qed.

#[global] Instance value_le_total : Total value_le.
Proof.
  intros [x|s] [y|t]; simpl; [lia|by left|by right|apply total, _].
Qed.

Lemma comparable_Permutation (l1 l2 : list value) :
  l1 ≡ₚ l2 → comparable l1 = comparable l2.
Proof.
  intros Hperm. unfold comparable.
  assert (∀ p : value → bool, forallb p l1 = forallb p l2) as Hall.
  { intros p. apply eq_true_iff_eq. rewrite !forallb_forall.
    setoid_rewrite <-list_elem_of_In. by setoid_rewrite Hperm. }
  by rewrite !Hall.
Qed.

(** On values of one kind, [sorted] returns the one ascending
    arrangement of the list. *)
Lemma sorted_one_kind (l : list value) :
  comparable l →
  ∃ l', sorted l = Ok l' ∧ l' ≡ₚ l ∧ Sorted value_le l'.
Proof.
  intros Hcomp. unfold sorted. destruct (comparable l); [|done].
  eexists. split; [done|]. split.
  - apply merge_sort_Permutation.
  - apply Sorted_merge_sort, _.
Qed.

Lemma sorted_mixed (l : list value) :
  ¬ comparable l → ∃ msg, sorted l = Raise (TypeError msg).
Proof.
  intros Hcomp. unfold sorted. destruct (comparable l); [by destruct Hcomp|].
  by eexists.
Qed.

(** The order in which the set is enumerated does not matter. *)
Lemma sorted_Permutation (l1 l2 : list value) :
  l1 ≡ₚ l2 → sorted l1 = sorted l2.
Proof.
  intros Hperm. unfold sorted. rewrite (comparable_Permutation _ _ Hperm).
  destruct (comparable l2); [|done]. f_equal.
  apply (Sorted_unique value_le).
  - apply Sorted_merge_sort, _.
  - apply Sorted_merge_sort, _.
  - by rewrite !merge_sort_Permutation.
Qed.

Lemma elem_of_column_values (df : DataFrame) (c : string) (v : value) :
  v ∈ unique (dropna (row_value (columns df) c <$> rows df))
  ↔ ∃ r, r ∈ rows df ∧ row_value (columns df) c r = Some v.
Proof.
  unfold unique, dropna. rewrite elem_of_remove_dups, list_elem_of_omap.
  split.
  - intros (x & (r & -> & Hr)%list_elem_of_fmap & Hx). by exists r.
  - intros (r & Hr & Hv). exists (Some v). split; [|done].
    apply list_elem_of_fmap. by exists r.
Qed.

Lemma found_in_cons (d : dict DataFrame) (sheet : string)
    (sheets : list string) (c : string) (v : value) :
  found_in d (sheet :: sheets) c v
  ↔ found_in d [sheet] c v ∨ found_in d sheets c v.
Proof.
  unfold found_in. split.
  - intros (s & df & r & [Heq|Hs]%elem_of_cons & Hrest).
    + left. exists s, df, r. split; [by apply list_elem_of_singleton|done].
    + right. by exists s, df, r.
  - intros [(s & df & r & Heq%list_elem_of_singleton & Hrest)
           |(s & df & r & Hs & Hrest)].
    + subst s. exists sheet, df, r. split; [by left|done].
    + exists s, df, r. split; [by right|done].
Qed.

Lemma unique_values_loop (d : dict DataFrame) (selected_sheets : list string)
    (c : string) (w : World) (acc : gset value) :
  session w = Some d →
  Forall (λ sheet, sheet ∈ keys d) selected_sheets →
  ∃ uv,
    for_fold selected_sheets acc (λ unique_values sheet,
      let* dataframes := get_dataframes in
      let* df := lift (getitem dataframes sheet) in
      if bool_decide (c ∈ columns df) then
        let* series := lift (getitem_col df c) in
        ret (unique_values ∪ list_to_set (unique (dropna series)))
      else ret unique_values) w = (Ok uv, w)
    ∧ ∀ v, v ∈ uv ↔ v ∈ acc ∨ found_in d selected_sheets c v.
Proof.
  intros Hs Hsel. revert acc.
  induction Hsel as [|sheet sheets Hsheet _ IH]; intros acc.
  { exists acc. split; [done|]. intros v. split; [by left|].
    intros [?|(s & ? & ? & Hin & _)]; [done|]. by apply elem_of_nil in Hin. }
  apply dict_get_is_Some in Hsheet as [df Hdf].
  cbn [for_fold]. unfold bind at 1. unfold bind at 1, get_dataframes at 1.
  rewrite Hs. unfold bind at 1, lift at 1, getitem at 1. rewrite Hdf.
  assert (∀ v, found_in d [sheet] c v
               ↔ c ∈ columns df
                 ∧ ∃ r, r ∈ rows df ∧ row_value (columns df) c r = Some v)
    as Hone.
  { intros v. unfold found_in. split.
    - intros (s & df' & r & Heq%list_elem_of_singleton & Hdf' & Hc & Hr).
      subst s. rewrite Hdf in Hdf'. injection Hdf' as <-.
      split; [done|by exists r].
    - intros (Hc & r & Hr & Hv). exists sheet, df, r.
      split_and!; [by left|done..]. }
  case_bool_decide as Hc.
  - unfold bind at 1, lift at 1. rewrite (getitem_col_elem_of _ _ Hc).
    unfold ret at 1.
    destruct (IH (acc ∪ list_to_set
                    (unique (dropna (row_value (columns df) c <$> rows df)))))
      as (uv & Hrun & Huv).
    exists uv. split; [done|]. intros v.
    rewrite Huv, elem_of_union, elem_of_list_to_set, elem_of_column_values.
    rewrite found_in_cons, Hone. tauto.
  - unfold ret at 1. destruct (IH acc) as (uv & Hrun & Huv).
    exists uv. split; [done|]. intros v.
    rewrite Huv, found_in_cons, Hone. tauto.
Qed.

(** The loop collects exactly the values found in the column over the
    selected sheets that have it, and changes nothing. *)
Lemma unique_values_spec (d : dict DataFrame) (selected_sheets : list string)
    (c : string) (w : World) :
  session w = Some d →
  Forall (λ sheet, sheet ∈ keys d) selected_sheets →
  ∃ uv, unique_values selected_sheets c w = (Ok uv, w)
        ∧ ∀ v, v ∈ uv ↔ found_in d selected_sheets c v.
Proof.
  intros Hs Hsel.
  destruct (unique_values_loop d selected_sheets c w ∅ Hs Hsel)
    as (uv & Hrun & Huv).
  exists uv. split; [done|]. intros v. rewrite Huv. split; [|by right].
  intros [Hin|?]; [|done]. by apply not_elem_of_empty in Hin.
Qed.

(** It does not depend on the order of the selection. *)
Lemma unique_values_Permutation (d : dict DataFrame)
    (sheets1 sheets2 : list string) (c : string) (w : World) :
  session w = Some d →
  Forall (λ sheet, sheet ∈ keys d) sheets1 →
  sheets1 ≡ₚ sheets2 →
  unique_values sheets1 c w = unique_values sheets2 c w.
Proof.
  intros Hs Hsel Hperm.
  destruct (unique_values_spec d sheets1 c w Hs Hsel) as (uv1 & -> & Huv1).
  destruct (unique_values_spec d sheets2 c w Hs) as (uv2 & -> & Huv2).
  { by rewrite <-Hperm. }
  do 2 f_equal. apply set_eq. intros v. rewrite Huv1, Huv2.
  unfold found_in. by setoid_rewrite Hperm.
Qed.

(** When the values found for a column are all numbers or all strings,
    the column is offered with exactly these values, each once, in
    ascending order, whatever the order of the selection. *)
Lemma offer_filter_one_kind (d : dict DataFrame) (selected_sheets : list string)
    (c : string) (w : World) (picked : string → option (list value))
    (mode : bool) (filters : Filters) :
  session w = Some d →
  Forall (λ sheet, sheet ∈ keys d) selected_sheets →
  (∃ v, found_in d selected_sheets c v) →
  (∀ v, found_in d selected_sheets c v → is_int v)
  ∨ (∀ v, found_in d selected_sheets c v → is_str v) →
  ∃ options,
    (∀ v, v ∈ options ↔ found_in d selected_sheets c v)
    ∧ NoDup options
    ∧ Sorted value_le options
    ∧ offer_filter picked mode selected_sheets filters c w
      = (Ok (dict_set c (multiselect options [] (picked c)) filters),
         mkWorld (session w)
           (page w ++ [st_multiselect (filter_label mode c) options
                         (multiselect options [] (picked c))])
           (io w))
    ∧ ∀ sheets', sheets' ≡ₚ selected_sheets →
        offer_filter picked mode sheets' filters c w
        = offer_filter picked mode selected_sheets filters c w.
Proof.
  intros Hs Hsel [v0 Hv0] Hkind.
  destruct (unique_values_spec d selected_sheets c w Hs Hsel)
    as (uv & Hrun & Huv).
  assert (comparable (elements uv)) as Hcomp.
  { unfold comparable. apply orb_True.
    destruct Hkind as [Hk|Hk]; [left|right]; apply forallb_True, Forall_forall;
      intros v Hv%elem_of_elements; apply Hk; by apply Huv. }
  destruct (sorted_one_kind _ Hcomp) as (options & Hsorted & Hperm & Hasc).
  exists options. split_and!.
  - intros v. by rewrite Hperm, elem_of_elements.
  - rewrite Hperm. apply NoDup_elements.
  - done.
  - unfold offer_filter, bind. rewrite Hrun.
    rewrite bool_decide_eq_true_2
      by (intros ->; by apply (not_elem_of_empty (C:=gset value) v0), Huv).
    unfold lift. by rewrite Hsorted.
  - intros sheets' Hperm'. unfold offer_filter, bind.
    by rewrite (unique_values_Permutation d selected_sheets sheets' c w).
Qed.

(** C3, at a column that mixes a number and a name.  The values are
    collected, but sorting them raises [TypeError]: the column is not
    offered, and the page ends with the error of the handler instead of
    filters and tables. *)
Theorem mixed_column_not_offered :
  let w1 := interaction (first_upload mixed_file) new_session in
  (∃ uv, unique_values ["Issuer"] "Issuer" w1 = (Ok uv, w1)
         ∧ elements uv ≡ₚ [VInt 1001; VStr "Alpha Bank"])
  ∧ sorted [VInt 1001; VStr "Alpha Bank"]
    = Raise (TypeError "'<' not supported between instances of 'str' and 'int'")
  ∧ (offer_filter (λ _, None) false ["Issuer"] [] "Issuer" w1).1
    = Raise (TypeError "'<' not supported between instances of 'str' and 'int'")
  ∧ st_error "Error reading Excel file: '<' not supported between instances of 'str' and 'int'"
    ∈ page w1
  ∧ (∀ label options selected, st_multiselect label options selected ∉ page w1)
  ∧ (∀ df, st_dataframe df ∉ page w1).
Proof.
  intros w1. split_and!.
  - eexists. split; [by vm_compute|]. vm_compute.
    apply Permutation_swap.
  - by vm_compute.
  - by vm_compute.
  - apply (bool_decide_unpack _). by vm_compute.
  - intros label options selected Hin. vm_compute in Hin.
    repeat (apply elem_of_cons in Hin as [Hin|Hin]; [discriminate Hin|]).
    by apply elem_of_nil in Hin.
  - intros df Hin. vm_compute in Hin.
    repeat (apply elem_of_cons in Hin as [Hin|Hin]; [discriminate Hin|]).
    by apply elem_of_nil in Hin.
Qed.

(** The scenario of the sheet with US, US, FR and a missing value:
    including [US] shows two rows, excluding it shows two rows too, the
    FR row and the row without a country. *)
Example issuer_country_scenario :
  (rows <$> match filtered_df false [("Issuer country", [VStr "US"])]
                    issuer_sheet with Ok T' => Some T' | Raise _ => None end)
  = Some (take 2 (rows issuer_sheet))
  ∧ (rows <$> match filtered_df true [("Issuer country", [VStr "US"])]
                      issuer_sheet with Ok T' => Some T' | Raise _ => None end)
    = Some (drop 2 (rows issuer_sheet)).
Proof. by vm_compute. Qed.

(** * Further properties of the filter engine *)

Lemma sublist_filter_impl {A} (P Q : A → Prop) `{!∀ x, Decision (P x)}
    `{!∀ x, Decision (Q x)} (l : list A) :
  (∀ x, P x → Q x) → filter P l `sublist_of` filter Q l.
Proof.
  intros HPQ. induction l as [|x l IH]; [done|].
  rewrite !filter_cons. destruct (decide (P x)) as [HP|HP].
  - rewrite decide_True by auto. by constructor.
  - destruct (decide (Q x)); [by constructor|done].
Qed.

(** X2.  Entries whose column the table does not have are skipped (the
    guard of line 151): the result is the one of the entries on columns
    of the table, and a table with none of the filtered columns is
    shown in full, whatever was selected and in either mode. *)
Theorem absent_columns_ignored (mode : bool) (S : Filters) (T : DataFrame) :
  filtered_df mode S T
  = filtered_df mode (filter (λ entry, entry.1 ∈ columns T) S) T
  ∧ (Forall (λ entry, entry.1 ∉ columns T) S → filtered_df mode S T = Ok T).
Proof.
  split.
  - rewrite !filtered_df_spec. unfold keep_rows. do 2 f_equal.
    apply list_filter_iff; intros r. unfold survives.
    rewrite !Forall_forall. split.
    + intros Hall entry [_ Hin]%list_elem_of_filter. by apply Hall.
    + intros Hall entry Hin Hact. apply Hall; [|done].
      apply list_elem_of_filter. split; [apply Hact|done].
  - intros Habsent. rewrite filtered_df_spec. destruct T as [cols rs].
    unfold keep_rows; simpl. do 2 f_equal. apply filter_all, Forall_forall.
    intros r _. unfold survives. eapply Forall_impl; [exact Habsent|].
    intros entry Hnotin [_ Hin]. done.
Qed.

(** X3.  Selecting more values of a column shows more rows in include
    mode, provided something was selected to begin with (an empty
    selection shows everything), and fewer rows in exclude mode. *)
Theorem selection_monotone (T : DataFrame) (C : string) (V V' : list value) :
  V ≠ [] → V ⊆ V' →
  ∃ Ti Ti' Te Te',
    filtered_df false [(C, V)] T = Ok Ti
    ∧ filtered_df false [(C, V')] T = Ok Ti'
    ∧ filtered_df true [(C, V)] T = Ok Te
    ∧ filtered_df true [(C, V')] T = Ok Te'
    ∧ rows Ti `sublist_of` rows Ti'
    ∧ rows Te' `sublist_of` rows Te.
Proof.
  intros HV Hsub.
  assert (V' ≠ []) as HV'.
  { intros ->. destruct V as [|v V]; [done|].
    by apply (not_elem_of_nil v), Hsub; left. }
  assert (∀ r, member (columns T) C V r → member (columns T) C V' r) as Hmem.
  { intros r (v & Hv & Hin). exists v. split; [done|]. by apply Hsub. }
  do 4 eexists. rewrite !filtered_df_spec.
  split_and!; [done..| |]; unfold keep_rows; cbn [rows];
    apply sublist_filter_impl; intros r; unfold survives;
    rewrite !Forall_singleton; unfold active, passes; cbn [fst snd].
  - intros Hr [_ Hc]. apply Hmem, Hr. done.
  - intros Hr [_ Hc] Hm. apply Hr; [done|]. by apply Hmem.
Qed.

Lemma selection_monotone_witness :
  ∃ Ti Ti' Te Te',
    filtered_df false [("Issuer country", [VStr "US"])] issuer_sheet = Ok Ti
    ∧ filtered_df false [("Issuer country", [VStr "US"; VStr "FR"])]
        issuer_sheet = Ok Ti'
    ∧ filtered_df true [("Issuer country", [VStr "US"])] issuer_sheet = Ok Te
    ∧ filtered_df true [("Issuer country", [VStr "US"; VStr "FR"])]
        issuer_sheet = Ok Te'
    ∧ rows Ti `sublist_of` rows Ti'
    ∧ rows Te' `sublist_of` rows Te.
Proof.
  apply (selection_monotone issuer_sheet "Issuer country"
           [VStr "US"] [VStr "US"; VStr "FR"]).
  - done.
  - intros v ->%list_elem_of_singleton. by left.
Defined.

(** * Further properties of the upload *)









Lemma on_upload_unreadable (inp : Inputs) (f : UploadedFile) (eng : engine)
    (msg : string) (w : World) :
  engine_of f = Some eng →
  parse f eng = Unreadable msg →
  on_upload inp f w
  = (Raise (ParseError msg),
     mkWorld (session w) (page w) (io w ++ [io_seek0; io_ExcelFile eng])).
Proof.
  intros Heng Hparse. unfold on_upload, bind.
  rewrite (choose_engine_supported _ _ _ Heng).
  unfold log, lift, ExcelFile. cbn [session page io]. rewrite Hparse.
  by rewrite <-app_assoc.
Qed.

Lemma on_exception_run (f : UploadedFile) (e : exn) (w : World) :
  ∃ hint,
    on_exception f e w
    = (Ok (),
       mkWorld (session w)
         (page w
          ++ st_error ("Error reading Excel file: " +:+ str e)
             :: hint
             ++ [st_info ("**File details:** Name: " +:+ name f +:+ ", Size: "
                          +:+ pretty (size f) +:+ " bytes");
                 st_exception e])
         (io w))
    ∧ (hint = [] ∨ hint = [st_warning zip_hint]
       ∨ hint = [st_warning engine_hint])
    ∧ (contains "not a zip file" (lower (str e)) → hint = [st_warning zip_hint]).
Proof.
  unfold on_exception, bind, render.
  destruct (contains "not a zip file" (lower (str e))) eqn:Hzip; cbn [orb].
  { exists [st_warning zip_hint]. cbn [session page io].
    rewrite <-!app_assoc. split_and!; [done|by right; left|done]. }
  destruct (contains "badzipfile" (lower (str e))).
  { exists [st_warning zip_hint]. cbn [session page io].
    rewrite <-!app_assoc. split_and!; [done|by right; left|done]. }
  destruct (contains "xlrd" (lower (str e)) || contains "engine" (lower (str e))).
  - exists [st_warning engine_hint]. cbn [session page io].
    rewrite <-!app_assoc. split_and!; [done|by right; right|done].
  - exists []. unfold ret. cbn [session page io].
    rewrite <-!app_assoc. split_and!; [done|by left|done].
Qed.

(** X6.  A file the reader cannot decode is reported by the handler: the
    error with the reader's text, at most one hint (the one for a file
    that is not a zip archive whenever the text says so, in any letter
    case), the file details and the exception.  The file was opened
    once and no sheet read; the store is left as it is, so a store is
    never created from such a file. *)
Theorem unreadable_file_reported (inp : Inputs) (f : UploadedFile)
    (eng : engine) (msg : string) (w : World) :
  uploaded_file inp = Some f →
  engine_of f = Some eng →
  parse f eng = Unreadable msg →
  reset_clicked inp = false →
  ∃ hint,
    interaction inp w
    = mkWorld (session w)
        (st_error ("Error reading Excel file: " +:+ msg)
         :: hint
         ++ [st_info ("**File details:** Name: " +:+ name f +:+ ", Size: "
                      +:+ pretty (size f) +:+ " bytes");
             st_exception (ParseError msg)])
        (io w ++ [io_seek0; io_ExcelFile eng])
    ∧ (hint = [] ∨ hint = [st_warning zip_hint]
       ∨ hint = [st_warning engine_hint])
    ∧ (contains "not a zip file" (lower msg) → hint = [st_warning zip_hint]).
Proof.
  intros Hup Heng Hparse Hreset.
  destruct (on_exception_run f (ParseError msg)
              (mkWorld (session w) [] (io w ++ [io_seek0; io_ExcelFile eng])))
    as (hint & Hrun & Hhint & Hzip).
  exists hint. split_and!; [|done..].
  unfold interaction, execute, script. rewrite Hup.
  unfold bind at 1. unfold try_except.
  rewrite (on_upload_unreadable inp f eng msg) by done.
  cbn [is_Exception fresh_page session page io]. rewrite Hrun.
  by rewrite sidebar_idle.
Qed.

Lemma unreadable_file_reported_witness :
  ∃ hint,
    interaction (first_upload (file_named "volumes.xlsx")) new_session
    = mkWorld None
        (st_error "Error reading Excel file: File is not a zip file"
         :: hint
         ++ [st_info "**File details:** Name: volumes.xlsx, Size: 512 bytes";
             st_exception (ParseError "File is not a zip file")])
        [io_seek0; io_ExcelFile openpyxl]
    ∧ (hint = [] ∨ hint = [st_warning zip_hint]
       ∨ hint = [st_warning engine_hint])
    ∧ (contains "not a zip file" (lower "File is not a zip file") →
       hint = [st_warning zip_hint]).
Proof.
  exact (unreadable_file_reported (first_upload (file_named "volumes.xlsx"))
           (file_named "volumes.xlsx") openpyxl "File is not a zip file"
           new_session eq_refl eq_refl eq_refl eq_refl).
Defined.

(** * Further properties of the display *)

Lemma rendered_nil (w : World) : rendered w [] = w.
Proof. destruct w. unfold rendered. simpl. by rewrite app_nil_r. Qed.

Lemma rendered_app (w : World) (els1 els2 : list element) :
  rendered (rendered w els1) els2 = rendered w (els1 ++ els2).
Proof. unfold rendered. simpl. by rewrite app_assoc. Qed.

Lemma render_rendered (e : element) (w : World) :
  render e w = (Ok (), rendered w [e]).
Proof. done. Qed.

Lemma multiselect_options {A} `{EqDecision A} (options default : list A)
    (picked : option (list A)) :
  Forall (λ x, x ∈ options) default →
  Forall (λ x, x ∈ options) (multiselect options default picked).
Proof.
  intros Hdef. destruct picked as [l|]; simpl; [|done].
  apply Forall_forall. by intros x [? _]%list_elem_of_filter.
Qed.

Lemma selection_of_keys (inp : Inputs) (d : dict DataFrame) :
  Forall (λ sheet, sheet ∈ keys d) (selection_of inp d).
Proof.
  apply multiselect_options, Forall_forall.
  intros sheet Hin. by apply (subseteq_take 1).
Qed.

Lemma display_sheet_run (mode : bool) (filters : Filters) (sheet : string)
    (d : dict DataFrame) (T : DataFrame) (w : World) :
  session w = Some d →
  dict_get sheet d = Some T →
  display_sheet mode filters sheet w
  = (Ok (), rendered w (sheet_view sheet T
                          (keep_rows (survives mode (columns T) filters) T))).
Proof.
  intros Hs Hd.
  unfold display_sheet, bind, get_dataframes, lift, getitem, render.
  rewrite Hs, Hd, filtered_df_spec. unfold rendered, sheet_view.
  cbn [session page io]. by rewrite <-!app_assoc.
Qed.

Lemma display_loop (mode : bool) (filters : Filters)
    (selected_sheets : list string) (d : dict DataFrame) (w : World) :
  session w = Some d →
  Forall (λ sheet, sheet ∈ keys d) selected_sheets →
  ∃ views,
    for_each selected_sheets (display_sheet mode filters) w
    = (Ok (), rendered w (concat views))
    ∧ Forall2 (λ sheet view,
         ∃ T T', dict_get sheet d = Some T
                 ∧ filtered_df mode filters T = Ok T'
                 ∧ view = sheet_view sheet T T'
                 ∧ length (rows T') ≤ length (rows T))
        selected_sheets views.
Proof.
  intros Hs Hsel. revert w Hs.
  induction Hsel as [|sheet sheets Hsheet _ IH]; intros w Hs.
  { exists []. split; [|constructor]. simpl. by rewrite rendered_nil. }
  apply dict_get_is_Some in Hsheet as [T HT].
  set (T' := keep_rows (survives mode (columns T) filters) T).
  destruct (IH (rendered w (sheet_view sheet T T'))) as (views & Hrun & Hviews);
    [done|].
  exists (sheet_view sheet T T' :: views). split.
  - cbn [for_each]. unfold bind.
    rewrite (display_sheet_run mode filters sheet d T w Hs HT). fold T'.
    rewrite Hrun, rendered_app. done.
  - constructor; [|done]. exists T, T'.
    split_and!; [done|apply filtered_df_spec|done|].
    unfold T', keep_rows. cbn [rows]. apply length_filter.
Qed.

(** X7.  The selected sheets are displayed in the order of the
    selection, and displaying cannot fail: each sheet of the store gets
    its title, the count of rows shown out of the rows stored, a
    download of the filtered table under [<sheet>_filtered.csv] and that
    same table; nothing else is rendered, and the store and the file
    are not touched. *)
Theorem sheets_displayed_in_order (mode : bool) (filters : Filters)
    (selected_sheets : list string) (d : dict DataFrame) (w : World) :
  session w = Some d →
  Forall (λ sheet, sheet ∈ keys d) selected_sheets →
  ∃ views,
    for_each selected_sheets (display_sheet mode filters) w
    = (Ok (), rendered w (concat views))
    ∧ Forall2 (λ sheet view,
         ∃ T T', dict_get sheet d = Some T
                 ∧ filtered_df mode filters T = Ok T'
                 ∧ view = sheet_view sheet T T'
                 ∧ length (rows T') ≤ length (rows T))
        selected_sheets views.
Proof. apply display_loop. Qed.

Lemma sheets_displayed_in_order_witness :
  let w := interaction (first_upload example_file) new_session in
  ∃ views,
    for_each ["Merchant"; "Issuer"]
      (display_sheet true [("Issuer country", [VStr "US"])]) w
    = (Ok (), rendered w (concat views))
    ∧ Forall2 (λ sheet view,
         ∃ T T', dict_get sheet (found_sheets example_workbook) = Some T
                 ∧ filtered_df true [("Issuer country", [VStr "US"])] T = Ok T'
                 ∧ view = sheet_view sheet T T'
                 ∧ length (rows T') ≤ length (rows T))
        ["Merchant"; "Issuer"] views.
Proof.
  intros w.
  apply (sheets_displayed_in_order true [("Issuer country", [VStr "US"])]
           ["Merchant"; "Issuer"] (found_sheets example_workbook) w).
  - by vm_compute.
  - repeat constructor; by apply (bool_decide_unpack _).
Defined.

(** * Further properties of the filter widgets *)

Lemma offer_filter_no_values (d : dict DataFrame)
    (selected_sheets : list string) (c : string) (w : World)
    (picked : string → option (list value)) (mode : bool)
    (filters : Filters) :
  session w = Some d →
  Forall (λ sheet, sheet ∈ keys d) selected_sheets →
  (∀ v, ¬ found_in d selected_sheets c v) →
  offer_filter picked mode selected_sheets filters c w = (Ok filters, w).
Proof.
  intros Hs Hsel Hnone.
  destruct (unique_values_spec d selected_sheets c w Hs Hsel)
    as (uv & Hrun & Huv).
  assert (uv = ∅) as ->.
  { apply elem_of_equiv_empty_L. intros v Hv. by apply (Hnone v), Huv. }
  unfold offer_filter, bind. rewrite Hrun.
  by rewrite bool_decide_eq_false_2 by (intros Hne; by apply Hne).
Qed.

Lemma offers_no_values (d : dict DataFrame) (selected_sheets : list string)
    (cols : list string) (w : World) (picked : string → option (list value))
    (mode : bool) (filters : Filters) :
  session w = Some d →
  Forall (λ sheet, sheet ∈ keys d) selected_sheets →
  (∀ c v, c ∈ cols → ¬ found_in d selected_sheets c v) →
  for_fold cols filters (offer_filter picked mode selected_sheets) w
  = (Ok filters, w).
Proof.
  intros Hs Hsel. induction cols as [|c cols IH]; intros Hnone; [done|].
  cbn [for_fold]. unfold bind.
  rewrite (offer_filter_no_values d) by (done || intros v; apply Hnone; by left).
  apply IH. intros c' v Hc'. apply Hnone. by right.
Qed.

(** X8.  A filter column in which the selected sheets hold no value (no
    selected sheet has the column, or all its cells there are missing)
    is not offered: no widget is rendered for it and [filters] gets no
    entry, so it cannot filter anything. *)
Theorem column_without_values_not_offered (d : dict DataFrame)
    (selected_sheets : list string) (c : string) (w : World)
    (picked : string → option (list value)) (mode : bool)
    (filters : Filters) :
  session w = Some d →
  Forall (λ sheet, sheet ∈ keys d) selected_sheets →
  (∀ v, ¬ found_in d selected_sheets c v) →
  offer_filter picked mode selected_sheets filters c w = (Ok filters, w).
Proof. apply offer_filter_no_values. Qed.

Lemma column_without_values_not_offered_witness :
  let w := interaction (first_upload example_file) new_session in
  offer_filter (λ _, Some [VStr "Grocery"]) false ["Issuer"] []
    "Product Category" w
  = (Ok [], w).
Proof.
  intros w.
  apply (column_without_values_not_offered (found_sheets example_workbook)
           ["Issuer"] "Product Category" w).
  - by vm_compute.
  - repeat constructor; by apply (bool_decide_unpack _).
  - intros v (sheet & df & r & Hsheet%list_elem_of_singleton & Hdf & Hc & _).
    subst sheet. vm_compute in Hdf. injection Hdf as <-.
    revert Hc. by apply (bool_decide_unpack _).
Defined.

Lemma Forall_dict_set {V} (P : string * V → Prop) (k : string) (v : V)
    (d : dict V) :
  P (k, v) → Forall P d → Forall P (dict_set k v d).
Proof.
  intros Hkv. induction 1 as [|[k' v'] d Hx Hd IH]; simpl.
  - by repeat constructor.
  - case_decide; by constructor.
Qed.

Lemma multiselect_picked (options : list value)
    (picked : option (list value)) (v : value) :
  v ∈ multiselect options [] picked →
  v ∈ options ∧ ∃ l, picked = Some l ∧ v ∈ l.
Proof.
  destruct picked as [l|]; simpl.
  - intros [? ?]%list_elem_of_filter. split; [done|by exists l].
  - by intros ?%elem_of_nil.
Qed.

(** Offering a column either raises the [TypeError] of sorting, in the
    world it started in, or renders at most its widget and records
    values that were picked among those found. *)
Lemma offer_filter_outcome (d : dict DataFrame) (selected_sheets : list string)
    (c : string) (w : World) (picked : string → option (list value))
    (mode : bool) (filters : Filters) :
  session w = Some d →
  Forall (λ sheet, sheet ∈ keys d) selected_sheets →
  Forall (picked_and_found picked d selected_sheets) filters →
  (∃ msg, offer_filter picked mode selected_sheets filters c w
          = (Raise (TypeError msg), w)
          ∧ ¬ one_kind (found_in d selected_sheets c))
  ∨ (∃ filters' els,
       offer_filter picked mode selected_sheets filters c w
       = (Ok filters', rendered w els)
       ∧ Forall (picked_and_found picked d selected_sheets) filters'
       ∧ Forall (λ e, ∃ label options selected,
                        e = st_multiselect label options selected) els).
Proof.
  intros Hs Hsel Hinv.
  destruct (unique_values_spec d selected_sheets c w Hs Hsel)
    as (uv & Hrun & Huv).
  unfold offer_filter, bind. rewrite Hrun.
  case_bool_decide as Hne.
  2:{ right. exists filters, []. by rewrite rendered_nil. }
  unfold lift, sorted. destruct (comparable (elements uv)) eqn:Hcomp.
  - right. eexists _, [_]. rewrite render_rendered.
    split_and!; [done| |by repeat econstructor].
    apply Forall_dict_set; [|done]. intros v Hv. cbn [fst snd] in *.
    apply multiselect_picked in Hv as [Hv Hpicked]. split; [|done].
    apply Huv, elem_of_elements. by rewrite <-(merge_sort_Permutation value_le).
  - left. eexists. split; [done|]. intros Hkind.
    apply not_true_iff_false in Hcomp. apply Hcomp.
    unfold comparable. apply orb_true_iff.
    destruct Hkind as [Hk|Hk]; [left|right]; apply forallb_forall;
      intros v Hv%list_elem_of_In%elem_of_elements;
      apply Is_true_true, Hk; by apply Huv.
Qed.

Lemma offers_outcome (d : dict DataFrame) (selected_sheets : list string)
    (cols : list string) (w : World) (picked : string → option (list value))
    (mode : bool) (filters : Filters) :
  session w = Some d →
  Forall (λ sheet, sheet ∈ keys d) selected_sheets →
  Forall (picked_and_found picked d selected_sheets) filters →
  ∃ els,
    Forall (λ e, ∃ label options selected,
                   e = st_multiselect label options selected) els
    ∧ ((∃ msg c,
          for_fold cols filters (offer_filter picked mode selected_sheets) w
          = (Raise (TypeError msg), rendered w els)
          ∧ c ∈ cols ∧ ¬ one_kind (found_in d selected_sheets c))
       ∨ (∃ filters',
            for_fold cols filters (offer_filter picked mode selected_sheets) w
            = (Ok filters', rendered w els)
            ∧ Forall (picked_and_found picked d selected_sheets) filters')).
Proof.
  intros Hs Hsel. revert w filters Hs.
  induction cols as [|c cols IH]; intros w filters Hs Hinv.
  { exists []. split; [done|]. right. exists filters.
    by rewrite rendered_nil. }
  cbn [for_fold]. unfold bind.
  destruct (offer_filter_outcome d selected_sheets c w picked mode filters)
    as [(msg & -> & Hkind)|(filters1 & els1 & -> & Hinv1 & Hels1)]; [done..| |].
  { exists []. split; [done|]. left. exists msg, c.
    rewrite rendered_nil. split_and!; [done|by left|done]. }
  destruct (IH (rendered w els1) filters1)
    as (els & Hels & [(msg & c' & Hrun & Hc' & Hkind)|(filters' & Hrun & Hinv')]);
    [done..| |].
  - exists (els1 ++ els). split; [by apply Forall_app|]. left.
    exists msg, c'. rewrite Hrun, rendered_app.
    split_and!; [done|by right|done].
  - exists (els1 ++ els). split; [by apply Forall_app|]. right.
    exists filters'. by rewrite Hrun, rendered_app.
Qed.

(** * Further properties of one execution *)

Lemma bind_Ok {A B} (m : M A) (k : A → M B) (w w' : World) (a : A) :
  m w = (Ok a, w') → bind m k w = k a w'.
Proof. intros Hm. unfold bind. by rewrite Hm. Qed.

Lemma bind_Raise {A B} (m : M A) (k : A → M B) (w w' : World) (e : exn) :
  m w = (Raise e, w') → bind m k w = (Raise e, w').
Proof. intros Hm. unfold bind. by rewrite Hm. Qed.

Lemma show_columns_run (d : dict DataFrame) (selected_sheets : list string)
    (w : World) :
  session w = Some d →
  Forall (λ sheet, sheet ∈ keys d) selected_sheets →
  ∃ els, for_each selected_sheets show_columns w = (Ok (), rendered w els)
         ∧ Forall is_write els.
Proof.
  intros Hs Hsel. revert w Hs.
  induction Hsel as [|sheet sheets Hsheet _ IH]; intros w Hs.
  { exists []. by rewrite rendered_nil. }
  apply dict_get_is_Some in Hsheet as [df Hdf].
  destruct (IH (rendered w [st_write ("**" +:+ sheet +:+ ":**");
                           st_write_list (columns df)]))
    as (els & Hrun & Hels); [done|].
  exists (st_write ("**" +:+ sheet +:+ ":**")
          :: st_write_list (columns df) :: els). split.
  - cbn [for_each].
    rewrite (bind_Ok _ _ w
               (rendered w [st_write ("**" +:+ sheet +:+ ":**");
                            st_write_list (columns df)]) ()).
    + by rewrite Hrun, rendered_app.
    + unfold show_columns, bind, render, get_dataframes, lift, getitem,
        rendered.
      cbn [session page io]. rewrite Hs, Hdf. cbn [session page io].
      by rewrite <-?app_assoc.
  - constructor; [left; by eexists|]. constructor; [right; by eexists|done].
Qed.

Lemma all_columns_loop (d : dict DataFrame) (selected_sheets : list string)
    (w : World) (acc : gset string) :
  session w = Some d →
  Forall (λ sheet, sheet ∈ keys d) selected_sheets →
  ∃ cols,
    for_fold selected_sheets acc (λ all_columns sheet,
      let* dataframes := get_dataframes in
      let* df := lift (getitem dataframes sheet) in
      ret (all_columns ∪ list_to_set (columns df))) w = (Ok cols, w)
    ∧ ∀ c, c ∈ cols
           ↔ c ∈ acc ∨ ∃ sheet df, sheet ∈ selected_sheets
                                   ∧ dict_get sheet d = Some df
                                   ∧ c ∈ columns df.
Proof.
  intros Hs Hsel. revert acc.
  induction Hsel as [|sheet sheets Hsheet _ IH]; intros acc.
  { exists acc. split; [done|]. intros c. split; [by left|].
    intros [?|(s & ? & Hin & _)]; [done|]. by apply elem_of_nil in Hin. }
  apply dict_get_is_Some in Hsheet as [df Hdf].
  destruct (IH (acc ∪ list_to_set (columns df))) as (cols & Hrun & Hcols).
  exists cols. split.
  - cbn [for_fold]. erewrite bind_Ok; [exact Hrun|].
    unfold bind, get_dataframes, lift, getitem. by rewrite Hs, Hdf.
  - intros c. rewrite Hcols, elem_of_union, elem_of_list_to_set. split.
    + intros [[?|Hc]|(s & df' & Hin & Hrest)].
      * by left.
      * right. exists sheet, df. split; [by left|done].
      * right. exists s, df'. split; [by right|done].
    + intros [?|(s & df' & [->|Hin]%elem_of_cons & Hdf' & Hc)].
      * by left; left.
      * left; right. congruence.
      * right. by exists s, df'.
Qed.

Lemma all_columns_run (d : dict DataFrame) (selected_sheets : list string)
    (w : World) :
  session w = Some d →
  Forall (λ sheet, sheet ∈ keys d) selected_sheets →
  ∃ cols, all_columns selected_sheets w = (Ok cols, w)
          ∧ ∀ c, c ∈ cols
                 ↔ ∃ sheet df, sheet ∈ selected_sheets
                               ∧ dict_get sheet d = Some df ∧ c ∈ columns df.
Proof.
  intros Hs Hsel.
  destruct (all_columns_loop d selected_sheets w ∅ Hs Hsel)
    as (cols & Hrun & Hcols).
  exists cols. split; [done|]. intros c. rewrite Hcols. split; [|by right].
  intros [Hin|?]; [|done]. by apply not_elem_of_empty in Hin.
Qed.

Lemma filter_none {A} (P : A → Prop) `{!∀ x, Decision (P x)} (l : list A) :
  Forall (λ x, ¬ P x) l → filter P l = [].
Proof.
  induction 1 as [|x l Hx _ IH]; [done|]. by rewrite filter_cons_False.
Qed.

(** What [show_selection] does, step by step: the columns of the
    selected sheets, the mode, the warning when no filter column exists,
    the widgets of the columns that have values, and then either the
    [TypeError] of a column of mixed kinds or the selected sheets. *)
Lemma show_selection_run (d : dict DataFrame) (inp : Inputs)
    (selected_sheets : list string) (w : World) :
  session w = Some d →
  Forall (λ sheet, sheet ∈ keys d) selected_sheets →
  ∃ els_cols els_warn els_offers,
    Forall is_write els_cols
    ∧ (els_warn = [st_warning no_filter_columns;
                   st_info ("Expected columns: "
                            +:+ String.concat ", " filter_columns)]
       ∧ without_filter_columns d selected_sheets
       ∨ els_warn = [] ∧ ¬ without_filter_columns d selected_sheets)
    ∧ Forall is_multiselect els_offers
    ∧ let pre :=
        els_cols
        ++ [st_radio filter_mode_options
              (radio filter_mode_options (filter_mode_index inp))]
        ++ els_warn ++ els_offers in
      (∃ msg c,
         show_selection inp selected_sheets w
         = (Raise (TypeError msg), rendered w pre)
         ∧ c ∈ filter_columns
         ∧ ¬ one_kind (found_in d selected_sheets c))
      ∨ (∃ filters views,
           show_selection inp selected_sheets w
           = (Ok (), rendered w (pre ++ concat views))
           ∧ Forall (picked_and_found (values_picked inp) d selected_sheets)
               filters
           ∧ Forall2 (λ sheet view,
                ∃ T T', dict_get sheet d = Some T
                        ∧ filtered_df (mode_of inp) filters T = Ok T'
                        ∧ view = sheet_view sheet T T'
                        ∧ length (rows T') ≤ length (rows T))
               selected_sheets views
           ∧ ((∀ c v, c ∈ filter_columns →
                 ¬ found_in d selected_sheets c v) →
              els_offers = [] ∧ filters = [])).
Proof.
  intros Hs Hsel.
  destruct (show_columns_run d selected_sheets w Hs Hsel)
    as (els_cols & Hrun_cols & Hels_cols).
  set (radio_el := st_radio filter_mode_options
                     (radio filter_mode_options (filter_mode_index inp))).
  set (w2 := rendered (rendered w els_cols) [radio_el]).
  destruct (all_columns_run d selected_sheets w2 Hs Hsel)
    as (cols & Hrun_all & Hcols).
  set (available := filter (λ col, col ∈ cols) filter_columns).
  set (els_warn :=
         if bool_decide (available = [])
         then [st_warning no_filter_columns;
               st_info ("Expected columns: "
                        +:+ String.concat ", " filter_columns)]
         else []).
  set (w3 := rendered w2 els_warn).
  destruct (offers_outcome d selected_sheets filter_columns w3
              (values_picked inp) (mode_of inp) [] Hs Hsel)
    as (els_offers & Hels_offers & Hoffers); [done|].
  exists els_cols, els_warn, els_offers.
  split_and!; [done| |done|].
  { unfold els_warn. case_bool_decide as Hav.
    - left. split; [done|]. intros c sheet df Hc Hsheet Hdf Hin.
      assert (c ∈ available) as Hcav.
      { apply list_elem_of_filter. split; [|done]. apply Hcols.
        by exists sheet, df. }
      rewrite Hav in Hcav. by apply elem_of_nil in Hcav.
    - right. split; [done|]. intros Hnone. apply Hav.
      apply filter_none, Forall_forall.
      intros c Hc (sheet & df & Hsheet & Hdf & Hin)%Hcols.
      by apply (Hnone c sheet df). }
  assert (∀ (k : unit → M unit),
            (if bool_decide (available = [])
             then render (st_warning no_filter_columns) >>
                  render (st_info ("Expected columns: "
                                   +:+ String.concat ", " filter_columns))
             else ret ()) w2 = (Ok (), w3)) as Hwarn.
  { intros _. unfold w3, els_warn. case_bool_decide.
    - unfold bind. rewrite !render_rendered. by rewrite rendered_app.
    - unfold ret. by rewrite rendered_nil. }
  specialize (Hwarn (λ _, ret ())).
  assert (∀ els, rendered w3 els
                 = rendered w (els_cols ++ [radio_el] ++ els_warn ++ els))
    as Hw3.
  { intros els. unfold w3, w2. rewrite !rendered_app.
    by rewrite <-?app_assoc. }
  cbn zeta. unfold show_selection.
  fold radio_el. fold (mode_of inp).
  rewrite (bind_Ok _ _ w (rendered w els_cols) () Hrun_cols).
  rewrite (bind_Ok _ _ (rendered w els_cols) w2 () (render_rendered _ _)).
  rewrite (bind_Ok _ _ w2 w2 cols Hrun_all).
  fold available.
  rewrite (bind_Ok _ _ w2 w3 () Hwarn).
  destruct Hoffers as [(msg & c & Hrun & Hc & Hkind)|(filters & Hrun & Hinv)].
  - left. exists msg, c. split_and!; [|done..].
    rewrite (bind_Raise _ _ w3 _ _ Hrun). by rewrite Hw3.
  - right.
    destruct (display_loop (mode_of inp) filters selected_sheets d
                (rendered w3 els_offers) Hs Hsel) as (views & Hshow & Hviews).
    exists filters, views. split_and!; [|done..|].
    + rewrite (bind_Ok _ _ w3 _ _ Hrun), Hshow, rendered_app, Hw3.
      by rewrite <-!app_assoc.
    + intros Hnone.
      rewrite (offers_no_values d selected_sheets filter_columns w3) in Hrun
        by done.
      injection Hrun as <- Hpage. split; [|done].
      assert (page w3 ++ [] = page w3 ++ els_offers) as Heq
        by (rewrite app_nil_r; exact Hpage).
      by apply app_inv_head in Heq.
Qed.

Lemma show_store_run (d : dict DataFrame) (inp : Inputs) (w : World) :
  session w = Some d →
  d ≠ [] →
  show_store inp w
  = (if bool_decide (selection_of inp d ≠ [])
     then show_selection inp (selection_of inp d)
     else render (st_info "👆 Please select at least one sheet to display"))
      (rendered w (store_header inp d)).
Proof.
  intros Hs Hd. unfold show_store.
  rewrite (bind_Ok _ _ w w d) by (unfold get_dataframes; by rewrite Hs).
  rewrite bool_decide_eq_true_2 by done.
  rewrite (bind_Ok _ _ _ _ _ (render_rendered _ _)).
  rewrite (bind_Ok _ _ _ _ _ (render_rendered _ _)).
  by rewrite rendered_app.
Qed.


Lemma one_kind_no_values (P : value → Prop) : (∀ v, ¬ P v) → one_kind P.
Proof. intros Hnone. left. intros v Hv. by destruct (Hnone v). Qed.

Lemma without_filter_columns_no_values (d : dict DataFrame)
    (selected_sheets : list string) :
  without_filter_columns d selected_sheets →
  ∀ c v, c ∈ filter_columns → ¬ found_in d selected_sheets c v.
Proof.
  intros Hnone c v Hc (sheet & df & r & Hsheet & Hdf & Hin & _).
  by apply (Hnone c sheet df).
Qed.


(** X9.  When no selected sheet has any of the six filter columns, the
    page warns about it and lists the expected columns, offers no
    filter, and still displays every selected sheet, in full. *)
Theorem no_filter_columns_full_tables (d : dict DataFrame) (inp : Inputs)
    (selected_sheets : list string) (w : World) :
  session w = Some d →
  Forall (λ sheet, sheet ∈ keys d) selected_sheets →
  without_filter_columns d selected_sheets →
  ∃ els_cols views,
    show_selection inp selected_sheets w
    = (Ok (),
       rendered w
         (els_cols
          ++ [st_radio filter_mode_options
                (radio filter_mode_options (filter_mode_index inp));
              st_warning no_filter_columns;
              st_info "Expected columns: Issuer region name, Issuer country, Product Category, Issuer, Merchant, Acquirer"]
          ++ concat views))
    ∧ Forall is_write els_cols
    ∧ Forall2 (full_view d) selected_sheets views.
Proof.
  intros Hs Hsel Hnone.
  pose proof (without_filter_columns_no_values d selected_sheets Hnone)
    as Hvalues.
  destruct (show_selection_run d inp selected_sheets w Hs Hsel)
    as (els_cols & els_warn & els_offers & Hcols & Hwarn & _ & Hrun).
  destruct Hwarn as [[-> _]|[_ Hnot]]; [|done].
  cbn zeta in Hrun.
  destruct Hrun as [(msg & c & _ & Hc & Hkind)
                   |(filters & views & Hrun & _ & Hviews & Hempty)].
  { destruct Hkind. apply one_kind_no_values. intros v. by apply Hvalues. }
  destruct (Hempty Hvalues) as [-> ->].
  exists els_cols, views. split_and!; [|done|].
  - rewrite Hrun. do 2 f_equal. rewrite app_nil_r. by rewrite <-?app_assoc.
  - eapply Forall2_impl; [exact Hviews|].
    intros sheet view (T & T' & HT & Hfilter & -> & _).
    exists T. split; [done|]. cbv in Hfilter. by injection Hfilter as <-.
Qed.

Lemma no_filter_columns_full_tables_witness :
  let w := mkWorld (Some [("Notes", mkDF ["Amount"] [mkRow 0 [Some (VInt 5)]])])
             [] [] in
  ∃ els_cols views,
    show_selection (first_upload example_file) ["Notes"] w
    = (Ok (),
       rendered w
         (els_cols
          ++ [st_radio filter_mode_options
                (radio filter_mode_options 0);
              st_warning no_filter_columns;
              st_info "Expected columns: Issuer region name, Issuer country, Product Category, Issuer, Merchant, Acquirer"]
          ++ concat views))
    ∧ Forall is_write els_cols
    ∧ Forall2
        (full_view [("Notes", mkDF ["Amount"] [mkRow 0 [Some (VInt 5)]])])
        ["Notes"] views.
Proof.
  intros w.
  apply (no_filter_columns_full_tables
           [("Notes", mkDF ["Amount"] [mkRow 0 [Some (VInt 5)]])]
           (first_upload example_file) ["Notes"] w).
  - done.
  - repeat constructor.
  - intros c sheet df Hc Hsheet%list_elem_of_singleton Hdf. subst sheet.
    injection Hdf as <-. cbn [columns].
    intros Hin%list_elem_of_singleton. subst c. revert Hc.
    by apply (bool_decide_unpack _).
Defined.

(** X10.  Over a store, showing it fails in one way only: with the
    [TypeError] of sorting, and then some filter column holds both
    numbers and strings in the selected sheets.  No lookup of a sheet or
    of a column fails. *)
Theorem display_fails_only_on_mixed_column (d : dict DataFrame) (inp : Inputs)
    (w : World) :
  session w = Some d →
  (show_store inp w).1 = Ok ()
  ∨ ∃ msg c, (show_store inp w).1 = Raise (TypeError msg)
             ∧ c ∈ filter_columns
             ∧ ¬ one_kind (found_in d (selection_of inp d) c).
Proof.
  intros Hs. destruct (decide (d = [])) as [->|Hd].
  { left. by rewrite show_store_empty. }
  rewrite (show_store_run d) by done.
  case_bool_decide as Hsel; [|by left].
  destruct (show_selection_run d inp (selection_of inp d)
              (rendered w (store_header inp d)) Hs (selection_of_keys inp d))
    as (els_cols & els_warn & els_offers & _ & _ & _ & Hrun).
  cbn zeta in Hrun.
  destruct Hrun as [(msg & c & -> & Hc & Hkind)|(filters & views & -> & _)].
  - right. by exists msg, c.
  - by left.
Qed.

Lemma display_fails_only_on_mixed_column_witness :
  let w := interaction (first_upload mixed_file) new_session in
  (show_store (first_upload mixed_file) w).1 = Ok ()
  ∨ ∃ msg c, (show_store (first_upload mixed_file) w).1 = Raise (TypeError msg)
             ∧ c ∈ filter_columns
             ∧ ¬ one_kind
                   (found_in [("Issuer", mixed_sheet)]
                      (selection_of (first_upload mixed_file)
                         [("Issuer", mixed_sheet)]) c).
Proof.
  intros w.
  apply (display_fails_only_on_mixed_column [("Issuer", mixed_sheet)]
           (first_upload mixed_file) w).
  by vm_compute.
Defined.





(** * Further properties of the session *)

Lemma tame_after_header (inp : Inputs) (selected_sheets : list string) :
  tame (if bool_decide (selected_sheets ≠ [])
        then show_selection inp selected_sheets
        else render (st_info "👆 Please select at least one sheet to display")).
Proof.
  case_bool_decide; [apply tame_show_selection|].
  apply tame_render, not_sheet_warning_other. intros ?; discriminate.
Qed.

(** X12.  After the first load of a workbook that has expected sheets,
    the page shows, right after the warnings of the missing ones, how
    many sheets were loaded and the sheet selector: its options are the
    expected sheets the workbook has, in the order of the expected list
    (not of the workbook), and an untouched selector selects the first
    of them. *)
Theorem sheets_offered_after_load (inp : Inputs) (f : UploadedFile)
    (eng : engine) (workbook : dict DataFrame) (w : World) :
  uploaded_file inp = Some f →
  engine_of f = Some eng →
  parse f eng = Workbook workbook →
  session w = None →
  reset_clicked inp = false →
  present_sheets workbook ≠ [] →
  ∃ els,
    page (interaction inp w)
    = missing_warnings workbook expected_sheets
      ++ [st_success (loaded_message (length (present_sheets workbook)));
          st_sheet_multiselect (present_sheets workbook)
            (multiselect (present_sheets workbook)
               (take 1 (present_sheets workbook)) (sheets_picked inp))]
      ++ els.
Proof.
  intros Hup Heng Hparse Hnone Hreset Hpresent.
  set (d := found_sheets workbook).
  assert (keys d = present_sheets workbook) as Hkeys
    by apply keys_found_among.
  assert (d ≠ []) as Hd.
  { intros Hnil. apply Hpresent. by rewrite <-Hkeys, Hnil. }
  set (w1 := loaded_world workbook eng (fresh_page w)).
  set (body := if bool_decide (selection_of inp d ≠ [])
               then show_selection inp (selection_of inp d)
               else render (st_info "👆 Please select at least one sheet to display")).
  assert (try_except (on_upload inp f) (on_exception f) (fresh_page w)
          = try_except body (on_exception f) (rendered w1 (store_header inp d)))
    as Htry.
  { rewrite (try_on_upload_fresh inp f eng workbook) by done.
    unfold try_except. by rewrite (show_store_run d). }
  pose proof (tame_try_except body (on_exception f)
                (tame_after_header inp (selection_of inp d))
                (tame_on_exception f) (rendered w1 (store_header inp d)))
    as [(_ & _ & els & Hpage & _) _].
  pose proof (try_except_ok body f (rendered w1 (store_header inp d))
                (proj2 (tame_after_header inp (selection_of inp d) _))) as Hok.
  unfold interaction, execute, script. rewrite Hup. unfold bind.
  rewrite Htry.
  destruct (try_except body (on_exception f) (rendered w1 (store_header inp d)))
    as [r w']. cbn [fst snd] in *. subst r.
  rewrite sidebar_idle by done. exists els. rewrite Hpage.
  unfold rendered, w1, loaded_world, store_header, selection_of.
  cbn [page fresh_page app]. rewrite Hkeys.
  replace (length d) with (length (present_sheets workbook))
    by (rewrite <-Hkeys; unfold keys; by rewrite length_fmap).
  by rewrite <-?app_assoc.
Qed.

Lemma sheets_offered_after_load_witness :
  ∃ els,
    page (interaction (first_upload example_file) new_session)
    = [st_warning "Sheet 'Acquirer' not found in the uploaded file.";
       st_success "✅ Loaded 7 sheets successfully!";
       st_sheet_multiselect
         [ "Region"; "Issuer"; "Merchant"; "Issuer-Merchant";
           "Issuer-Acquirer"; "Acquirer-Merchant"; "Issuer-Acquirer-Merchant" ]
         ["Region"]]
      ++ els.
Proof.
  exact (sheets_offered_after_load (first_upload example_file) example_file
           openpyxl example_workbook new_session
           eq_refl eq_refl eq_refl eq_refl eq_refl
           ltac:(by vm_compute)).
Defined.

Lemma try_settled (inp : Inputs) (f : UploadedFile) (w : World) :
  is_Some (session w) →
  session (try_except (on_upload inp f) (on_exception f) w).2 = session w
  ∧ sheets_read (io (try_except (on_upload inp f) (on_exception f) w).2)
    = sheets_read (io w).
Proof.
  intros Hsome. unfold try_except.
  destruct (on_upload_present inp f w Hsome) as (Hs & Hio & _).
  destruct (on_upload inp f w) as [[[]|e] w1]; cbn [fst snd] in *; [done|].
  destruct (is_Exception e); [|done].
  destruct (tame_on_exception f e w1) as [(Hs' & Hio' & _) _].
  split; congruence.
Qed.

(** X13.  Clicking Reset All while a readable workbook is uploaded
    replaces the store: the old one is deleted, the script reruns, and
    the store is filled again from the workbook now uploaded, reading
    each of its expected sheets once more. *)
Theorem reset_rebuilds_store (inp : Inputs) (f : UploadedFile) (eng : engine)
    (workbook : dict DataFrame) (w : World) :
  is_Some (session w) →
  reset_clicked inp = true →
  uploaded_file inp = Some f →
  engine_of f = Some eng →
  parse f eng = Workbook workbook →
  session (interaction inp w) = Some (found_sheets workbook)
  ∧ sheets_read (io (interaction inp w))
    = sheets_read (io w) ++ present_sheets workbook.
Proof.
  intros Hsome Hreset Hup Heng Hparse.
  destruct (try_settled inp f (fresh_page w) Hsome) as [Hs Hio].
  pose proof (try_except_ok (on_upload inp f) f (fresh_page w)
                (on_upload_present_caught inp f (fresh_page w) Hsome
                   (ex_intro _ eng Heng))) as Hok.
  assert (∃ w1, sheets_read (io w1) = sheets_read (io w)
                ∧ execute inp w
                  = (Raise RerunException, mkWorld None (page w1) (io w1)))
    as (w1 & Hio1 & Hrun1).
  { unfold execute, script. rewrite Hup. unfold bind.
    destruct (try_except (on_upload inp f) (on_exception f) (fresh_page w))
      as [r w1]. cbn [fst snd] in *. subst r.
    rewrite sidebar_reset by done. by exists w1. }
  destruct (execute_fresh (released inp) f eng workbook
              (mkWorld None (page w1) (io w1)))
    as (w' & (Hs' & Hio' & _) & _ & Hrun2); [done..|].
  unfold interaction. rewrite Hrun1, Hrun2, sidebar_idle by done. cbn [snd].
  rewrite Hs', Hio'. split; [done|].
  by rewrite sheets_read_loaded_world, <-Hio1.
Qed.

Lemma reset_rebuilds_store_witness :
  let w := interaction (first_upload example_file) new_session in
  let inp := mkInputs (Some mixed_file) None 0 (λ _, None) true in
  session (interaction inp w) = Some (found_sheets [("Issuer", mixed_sheet)])
  ∧ sheets_read (io (interaction inp w))
    = sheets_read (io w) ++ present_sheets [("Issuer", mixed_sheet)].
Proof.
  intros w inp.
  refine (reset_rebuilds_store inp mixed_file openpyxl
            [("Issuer", mixed_sheet)] w _ eq_refl eq_refl _ eq_refl).
  - eexists. by vm_compute.
  - by vm_compute.
Defined.

(** X14.  Without an uploaded file the page is the invitation to upload
    and the file log is untouched.  A store left by an earlier upload
    stays in the session when the button is not clicked; clicking Reset
    All deletes it, and the rerun shows the invitation again. *)
Theorem no_upload_invites (inp : Inputs) (w : World) :
  uploaded_file inp = None →
  page (interaction inp w)
  = [st_info "👆 Please upload an Excel file to get started"]
  ∧ io (interaction inp w) = io w
  ∧ session (interaction inp w)
    = if reset_clicked inp then None else session w.
Proof.
  intros Hup.
  assert (∀ inp' w', uploaded_file inp' = None → reset_clicked inp' = false →
            execute inp' w'
            = (Ok (), mkWorld (session w')
                        [st_info "👆 Please upload an Excel file to get started"]
                        (io w'))) as Hidle.
  { intros inp' w' Hup' Hreset'. unfold execute, script, bind.
    rewrite Hup', render_rendered. by rewrite sidebar_idle. }
  unfold interaction. destruct (reset_clicked inp) eqn:Hreset.
  - assert (execute inp w
            = (Raise RerunException,
               mkWorld None
                 [st_info "👆 Please upload an Excel file to get started"]
                 (io w))) as ->.
    { unfold execute, script, bind. rewrite Hup, render_rendered.
      by rewrite sidebar_reset. }
    by rewrite Hidle.
  - by rewrite Hidle.
Qed.

Lemma no_upload_invites_witness :
  let w := interaction (first_upload example_file) new_session in
  let inp := mkInputs None None 0 (λ _, None) true in
  page (interaction inp w)
  = [st_info "👆 Please upload an Excel file to get started"]
  ∧ io (interaction inp w) = io w
  ∧ session (interaction inp w) = None.
Proof.
  intros w inp. exact (no_upload_invites inp w eq_refl).
Defined.

(** X15.  A filter column whose values in the selected sheets are all
    numbers or all strings is offered with exactly the values found
    there, each once and in ascending order; the widget and the entry
    recorded in [filters] do not depend on the order in which the
    sheets were selected. *)
Theorem candidate_values_one_kind (d : dict DataFrame)
    (selected_sheets : list string) (c : string) (w : World)
    (picked : string → option (list value)) (mode : bool)
    (filters : Filters) :
  session w = Some d →
  Forall (λ sheet, sheet ∈ keys d) selected_sheets →
  (∃ v, found_in d selected_sheets c v) →
  one_kind (found_in d selected_sheets c) →
  ∃ options,
    (∀ v, v ∈ options ↔ found_in d selected_sheets c v)
    ∧ NoDup options
    ∧ Sorted value_le options
    ∧ offer_filter picked mode selected_sheets filters c w
      = (Ok (dict_set c (multiselect options [] (picked c)) filters),
         rendered w [st_multiselect (filter_label mode c) options
                       (multiselect options [] (picked c))])
    ∧ ∀ sheets', sheets' ≡ₚ selected_sheets →
        offer_filter picked mode sheets' filters c w
        = offer_filter picked mode selected_sheets filters c w.
Proof.
  intros Hs Hsel Hsome Hkind.
  apply (offer_filter_one_kind d selected_sheets c w picked mode filters);
    done.
Qed.

Lemma candidate_values_one_kind_witness :
  let w := interaction (first_upload example_file) new_session in
  let d := found_sheets example_workbook in
  ∃ options,
    (∀ v, v ∈ options ↔ found_in d ["Merchant"; "Issuer"] "Issuer country" v)
    ∧ NoDup options
    ∧ Sorted value_le options
    ∧ offer_filter (λ _, None) true ["Merchant"; "Issuer"] []
        "Issuer country" w
      = (Ok (dict_set "Issuer country"
               (multiselect options [] None) []),
         rendered w [st_multiselect (filter_label true "Issuer country")
                       options (multiselect options [] None)])
    ∧ ∀ sheets', sheets' ≡ₚ ["Merchant"; "Issuer"] →
        offer_filter (λ _, None) true sheets' [] "Issuer country" w
        = offer_filter (λ _, None) true ["Merchant"; "Issuer"] []
            "Issuer country" w.
Proof.
  intros w d.
  apply (candidate_values_one_kind d ["Merchant"; "Issuer"] "Issuer country"
           w (λ _, None) true []).
  - by vm_compute.
  - repeat constructor; by apply (bool_decide_unpack _).
  - exists (VStr "US"), "Issuer", issuer_sheet,
      (mkRow 0 [Some (VStr "Alpha Bank"); Some (VStr "US"); Some (VInt 120)]).
    split_and!; [by right; left|by vm_compute| |by left|by vm_compute].
    by apply (bool_decide_unpack _).
  - right. intros v (sheet & df & r & Hsheet & Hdf & _ & Hr & Hv).
    assert (df = issuer_sheet) as ->.
    { repeat (apply elem_of_cons in Hsheet as [->|Hsheet];
              [vm_compute in Hdf; by injection Hdf as <-|]).
      by apply elem_of_nil in Hsheet. }
    unfold issuer_sheet in Hr, Hv. cbn [rows columns] in Hr, Hv.
    repeat (apply elem_of_cons in Hr as [->|Hr];
            [vm_compute in Hv; by simplify_eq|]).
    by apply elem_of_nil in Hr.
Defined.

Lemma on_upload_present_page (inp : Inputs) (f : UploadedFile) (w : World) :
  is_Some (session w) →
  ∃ els, page (on_upload inp f w).2 = page w ++ els
         ∧ Forall not_sheet_warning els.
Proof.
  intros Hsome. unfold on_upload, bind.
  destruct (engine_of f) as [eng|] eqn:Heng.
  2:{ rewrite (choose_engine_unsupported _ _ Heng). cbn [snd page].
      eexists. split; [done|]. constructor; [|done].
      apply not_sheet_warning_other. intros ?; discriminate. }
  rewrite (choose_engine_supported _ _ _ Heng).
  unfold log, lift, ExcelFile. cbn [session page io].
  destruct (parse f eng) as [workbook|msg].
  2:{ exists []. by rewrite app_nil_r. }
  rewrite load_sheets_present by done.
  destruct (tame_show_store inp
              (mkWorld (session w) (page w) ((io w ++ [io_seek0])
                                             ++ [io_ExcelFile eng])))
    as [(_ & _ & els & Hpage & Hels) _].
  by exists els.
Qed.

(** X16.  The warnings of missing sheets belong to the execution that
    loads the workbook: once the session has a store, no later
    interaction shows any of them, as long as the store is not reset. *)
Theorem warnings_only_when_loading (inp : Inputs) (w : World) :
  is_Some (session w) →
  reset_clicked inp = false →
  ∀ sheet, st_warning (sheet_not_found sheet) ∉ page (interaction inp w).
Proof.
  intros Hsome Hreset.
  assert (Forall not_sheet_warning (page (interaction inp w))) as Hpage.
  { unfold interaction, execute, script, bind.
    destruct (uploaded_file inp) as [f|].
    2:{ rewrite render_rendered, sidebar_idle by done. cbn [page rendered].
        constructor; [|done]. apply not_sheet_warning_other.
        intros ?; discriminate. }
    unfold try_except.
    destruct (on_upload_present_page inp f (fresh_page w) Hsome)
      as (els & Hpage & Hels).
    destruct (on_upload_present inp f (fresh_page w) Hsome) as (_ & _ & Hr).
    destruct (on_upload inp f (fresh_page w)) as [[[]|e] w1];
      cbn [fst snd fresh_page page app] in *.
    - rewrite sidebar_idle by done. by rewrite Hpage.
    - destruct (is_Exception e) eqn:He.
      + destruct (tame_on_exception f e w1) as [(_ & _ & els' & Hpage' & Hels') _].
        pose proof (on_exception_ok f e w1) as Hok.
        destruct (on_exception f e w1) as [r w2]. cbn [fst snd] in *. subst r.
        rewrite sidebar_idle by done. rewrite Hpage', Hpage.
        by apply Forall_app.
      + destruct e; try done; [by rewrite Hpage|].
        by destruct (Hr RerunException). }
  intros sheet Hin. rewrite Forall_forall in Hpage.
  by apply (Hpage _ Hin sheet).
Qed.

Lemma warnings_only_when_loading_witness :
  st_warning (sheet_not_found "Acquirer")
  ∉ page (interaction (exclude_us example_file)
            (interaction (first_upload example_file) new_session)).
Proof.
  refine (warnings_only_when_loading (exclude_us example_file)
            (interaction (first_upload example_file) new_session)
            _ eq_refl "Acquirer").
  eexists. by vm_compute.
Defined.
